(** * sdl-vulkan-classes: a shallow embedding of the Vulkan bootstrap layer

    The development follows the C++ sources:
    - [vulkan.h]   : the result-code table, the info records, the request
                     interfaces and the wrapper classes;
    - the implementation of vulkan.h : the capability queries,
                     [NamesArray], [Instance], [PhysicalDevice] and [Surface];
    - [test.cpp]   : the two parameter classes and [filter_by_name].

    The driver and the window layer are external collaborators.  They are
    modelled as a record of state-passing entry points; every C++ function
    that talks to them is a computation in a small monad threading the
    driver state, the set of live heap blocks and the trace of driver
    calls, and ending by returning, by throwing, or in undefined behaviour. *)

From Stdlib Require Import ZArith NArith QArith Ascii.
From Stdlib Require String OrderedTypeEx.
From stdpp Require Import base list strings gmap sorting.

(** ** Order on [std::string]

    [std::set<std::string>] orders its keys with [operator<], the
    lexicographic order on unsigned bytes; this is [String.compare]. *)

Module StringOrder.

Definition lt (a b : string) : Prop := String.compare a b = Lt.

End StringOrder.

(** ** [std::set<std::string>]

    A set is its in-order traversal: a list that is strictly increasing
    for [StringOrder.lt].  [insert] keeps an existing key, [find] walks
    the order, [size] is the number of keys. *)

Module StdSet.

Abbreviation t := (list string).

Definition empty : t := [].

Fixpoint insert (x : string) (s : t) : t :=
  match s with
  | [] => [x]
  | y :: s' =>
      match String.compare x y with
      | Lt => x :: y :: s'
      | Eq => y :: s'
      | Gt => y :: insert x s'
      end
  end.

(** [s.find(x) != s.end()] *)
Fixpoint find (x : string) (s : t) : bool :=
  match s with
  | [] => false
  | y :: s' =>
      match String.compare x y with
      | Lt => false
      | Eq => true
      | Gt => find x s'
      end
  end.

Definition size (s : t) : nat := length s.

(** [std::set_difference] over two sorted ranges, as the standard
    library writes it: one pass over both ranges. *)
Fixpoint set_difference (a b : t) : list string :=
  let fix go (b : t) : list string :=
    match a with
    | [] => []
    | x :: a' =>
        match b with
        | [] => a
        | y :: b' =>
            match String.compare x y with
            | Lt => x :: set_difference a' b
            | Eq => set_difference a' b'
            | Gt => go b'
            end
        end
    end
  in go b.

(** The representation invariant: keys strictly increasing. *)
Definition wf (s : t) : Prop := StronglySorted StringOrder.lt s.

End StdSet.

(** ** Scalar types and handles of the driver API *)

Definition uint32_t := N.
Bind Scope N_scope with uint32_t.

(** [count++] on a [uint32_t] *)
Definition uint32_succ (n : uint32_t) : uint32_t := ((n + 1) mod 2 ^ 32)%N.

(** conversion of an [int] to [uint32_t] *)
Definition uint32_of_int (z : Z) : uint32_t := Z.to_N (z mod 2 ^ 32).

Definition VkBool32 := uint32_t.
Definition SDL_bool := bool.

(** Opaque handles: the value of the pointer. *)
Definition VkInstance := N.
Definition VkPhysicalDevice := N.
Definition VkDevice := N.
Definition VkSurfaceKHR := N.
Definition SDL_Window := N.
Bind Scope N_scope with VkBool32 VkInstance VkPhysicalDevice VkDevice VkSurfaceKHR
  SDL_Window.

(** ** [VkResult] and the table [result_to_name] of vulkan.h *)

Definition VkResult := Z.
Bind Scope Z_scope with VkResult.

(** Modelled from the spec: the enumerators of [VkResult] are declared in
    the Vulkan headers, which are not part of the sources.  The spec says
    that one well-known value means success and that the other codes are
    distinct; the values below are those of [vulkan_core.h].  What is
    proved about the table only uses that they are pairwise distinct. *)
Definition VK_SUCCESS : VkResult := 0.
Definition VK_NOT_READY : VkResult := 1.
Definition VK_TIMEOUT : VkResult := 2.
Definition VK_EVENT_SET : VkResult := 3.
Definition VK_EVENT_RESET : VkResult := 4.
Definition VK_INCOMPLETE : VkResult := 5.
Definition VK_ERROR_OUT_OF_HOST_MEMORY : VkResult := (-1).
Definition VK_ERROR_OUT_OF_DEVICE_MEMORY : VkResult := (-2).
Definition VK_ERROR_INITIALIZATION_FAILED : VkResult := (-3).
Definition VK_ERROR_DEVICE_LOST : VkResult := (-4).
Definition VK_ERROR_MEMORY_MAP_FAILED : VkResult := (-5).
Definition VK_ERROR_LAYER_NOT_PRESENT : VkResult := (-6).
Definition VK_ERROR_EXTENSION_NOT_PRESENT : VkResult := (-7).
Definition VK_ERROR_FEATURE_NOT_PRESENT : VkResult := (-8).
Definition VK_ERROR_INCOMPATIBLE_DRIVER : VkResult := (-9).
Definition VK_ERROR_TOO_MANY_OBJECTS : VkResult := (-10).
Definition VK_ERROR_FORMAT_NOT_SUPPORTED : VkResult := (-11).
Definition VK_ERROR_FRAGMENTED_POOL : VkResult := (-12).
Definition VK_ERROR_UNKNOWN : VkResult := (-13).
Definition VK_ERROR_OUT_OF_POOL_MEMORY : VkResult := (-1000069000).
Definition VK_ERROR_INVALID_EXTERNAL_HANDLE : VkResult := (-1000072003).
Definition VK_ERROR_FRAGMENTATION : VkResult := (-1000161000).
Definition VK_ERROR_INVALID_OPAQUE_CAPTURE_ADDRESS : VkResult := (-1000257000).
Definition VK_ERROR_SURFACE_LOST_KHR : VkResult := (-1000000000).
Definition VK_ERROR_NATIVE_WINDOW_IN_USE_KHR : VkResult := (-1000000001).
Definition VK_SUBOPTIMAL_KHR : VkResult := 1000001003.
Definition VK_ERROR_OUT_OF_DATE_KHR : VkResult := (-1000001004).
Definition VK_ERROR_INCOMPATIBLE_DISPLAY_KHR : VkResult := (-1000003001).
Definition VK_ERROR_VALIDATION_FAILED_EXT : VkResult := (-1000011001).
Definition VK_ERROR_INVALID_SHADER_NV : VkResult := (-1000012000).
Definition VK_ERROR_INVALID_DRM_FORMAT_MODIFIER_PLANE_LAYOUT_EXT : VkResult := (-1000158000).
Definition VK_ERROR_NOT_PERMITTED_EXT : VkResult := (-1000174001).
Definition VK_ERROR_FULL_SCREEN_EXCLUSIVE_MODE_LOST_EXT : VkResult := (-1000255000).
Definition VK_THREAD_IDLE_KHR : VkResult := 1000268000.
Definition VK_THREAD_DONE_KHR : VkResult := 1000268001.
Definition VK_OPERATION_DEFERRED_KHR : VkResult := 1000268002.
Definition VK_OPERATION_NOT_DEFERRED_KHR : VkResult := 1000268003.
Definition VK_PIPELINE_COMPILE_REQUIRED_EXT : VkResult := 1000297000.

(** The initializer list of [result_to_name], in source order. *)
Definition result_to_name_entries : list (VkResult * string) :=
  [ (VK_SUCCESS, "VK_SUCCESS");
    (VK_NOT_READY, "VK_NOT_READY");
    (VK_TIMEOUT, "VK_TIMEOUT");
    (VK_EVENT_SET, "VK_EVENT_SET");
    (VK_EVENT_RESET, "VK_EVENT_RESET");
    (VK_INCOMPLETE, "VK_INCOMPLETE");
    (VK_ERROR_OUT_OF_HOST_MEMORY, "VK_ERROR_OUT_OF_HOST_MEMORY");
    (VK_ERROR_OUT_OF_DEVICE_MEMORY, "VK_ERROR_OUT_OF_DEVICE_MEMORY");
    (VK_ERROR_INITIALIZATION_FAILED, "VK_ERROR_INITIALIZATION_FAILED");
    (VK_ERROR_DEVICE_LOST, "VK_ERROR_DEVICE_LOST");
    (VK_ERROR_MEMORY_MAP_FAILED, "VK_ERROR_MEMORY_MAP_FAILED");
    (VK_ERROR_LAYER_NOT_PRESENT, "VK_ERROR_LAYER_NOT_PRESENT");
    (VK_ERROR_EXTENSION_NOT_PRESENT, "VK_ERROR_EXTENSION_NOT_PRESENT");
    (VK_ERROR_FEATURE_NOT_PRESENT, "VK_ERROR_FEATURE_NOT_PRESENT");
    (VK_ERROR_INCOMPATIBLE_DRIVER, "VK_ERROR_INCOMPATIBLE_DRIVER");
    (VK_ERROR_TOO_MANY_OBJECTS, "VK_ERROR_TOO_MANY_OBJECTS");
    (VK_ERROR_FORMAT_NOT_SUPPORTED, "VK_ERROR_FORMAT_NOT_SUPPORTED");
    (VK_ERROR_FRAGMENTED_POOL, "VK_ERROR_FRAGMENTED_POOL");
    (VK_ERROR_UNKNOWN, "VK_ERROR_UNKNOWN");
    (VK_ERROR_OUT_OF_POOL_MEMORY, "VK_ERROR_OUT_OF_POOL_MEMORY");
    (VK_ERROR_INVALID_EXTERNAL_HANDLE, "VK_ERROR_INVALID_EXTERNAL_HANDLE");
    (VK_ERROR_FRAGMENTATION, "VK_ERROR_FRAGMENTATION");
    (VK_ERROR_INVALID_OPAQUE_CAPTURE_ADDRESS, "VK_ERROR_INVALID_OPAQUE_CAPTURE_ADDRESS");
    (VK_ERROR_SURFACE_LOST_KHR, "VK_ERROR_SURFACE_LOST_KHR");
    (VK_ERROR_NATIVE_WINDOW_IN_USE_KHR, "VK_ERROR_NATIVE_WINDOW_IN_USE_KHR");
    (VK_SUBOPTIMAL_KHR, "VK_SUBOPTIMAL_KHR");
    (VK_ERROR_OUT_OF_DATE_KHR, "VK_ERROR_OUT_OF_DATE_KHR");
    (VK_ERROR_INCOMPATIBLE_DISPLAY_KHR, "VK_ERROR_INCOMPATIBLE_DISPLAY_KHR");
    (VK_ERROR_VALIDATION_FAILED_EXT, "VK_ERROR_VALIDATION_FAILED_EXT");
    (VK_ERROR_INVALID_SHADER_NV, "VK_ERROR_INVALID_SHADER_NV");
    (VK_ERROR_INVALID_DRM_FORMAT_MODIFIER_PLANE_LAYOUT_EXT,
       "VK_ERROR_INVALID_DRM_FORMAT_MODIFIER_PLANE_LAYOUT_EXT");
    (VK_ERROR_NOT_PERMITTED_EXT, "VK_ERROR_NOT_PERMITTED_EXT");
    (VK_ERROR_FULL_SCREEN_EXCLUSIVE_MODE_LOST_EXT,
       "VK_ERROR_FULL_SCREEN_EXCLUSIVE_MODE_LOST_EXT");
    (VK_THREAD_IDLE_KHR, "VK_THREAD_IDLE_KHR");
    (VK_THREAD_DONE_KHR, "VK_THREAD_DONE_KHR");
    (VK_OPERATION_DEFERRED_KHR, "VK_OPERATION_DEFERRED_KHR");
    (VK_OPERATION_NOT_DEFERRED_KHR, "VK_OPERATION_NOT_DEFERRED_KHR");
    (VK_PIPELINE_COMPILE_REQUIRED_EXT, "VK_PIPELINE_COMPILE_REQUIRED_EXT") ].

(** [std::map<VkResult, const char*>] built from the initializer list: an
    entry whose key is already present is not inserted, which is the
    priority [list_to_map] gives to the first occurrence. *)
Definition result_to_name : gmap VkResult string :=
  list_to_map result_to_name_entries.

(** ** Exceptions *)

Module VulkanException.
(** [class VulkanException : public std::runtime_error] *)
Record t := mk { result : VkResult; what : string }.

Definition code (e : t) : VkResult := result e.

Definition enum_name (e : t) : string :=
  match result_to_name !! result e with
  | None => "???"
  | Some name => name
  end.
End VulkanException.

(** What a [throw] of the sources carries: a [VulkanException] or a plain
    [std::runtime_error]. *)
Inductive exception :=
| vulkan_exception (e : VulkanException.t)
| runtime_error (what : string).

Definition VulkanException (result : VkResult) (message : string) : exception :=
  vulkan_exception (VulkanException.mk result message).

(** ** Records of vulkan.h and of the driver API *)

Module ExtensionInfo.
(** [struct ExtensionInfo] *)
Record t := mk { name : string; specVersion : uint32_t }.
End ExtensionInfo.

Module LayerInfo.
(** [struct LayerInfo] *)
Record t := mk {
  name : string;
  description : string;
  specVersion : uint32_t;
  implementationVersion : uint32_t
}.
End LayerInfo.

(** The template parameter [Info] of [filter_by_name] and [NamesArray] is
    any type with a [name] member. *)
Class Named (Info : Type) := name_of : Info -> string.
#[export] Instance ExtensionInfo_named : Named ExtensionInfo.t := ExtensionInfo.name.
#[export] Instance LayerInfo_named : Named LayerInfo.t := LayerInfo.name.

#[export] Instance ExtensionInfo_eq_dec : EqDecision ExtensionInfo.t.
Proof. solve_decision. Defined.
#[export] Instance LayerInfo_eq_dec : EqDecision LayerInfo.t.
Proof. solve_decision. Defined.

(** The character arrays of the driver's records are read as C strings. *)
Record VkLayerProperties := {
  layerName : string;
  lp_specVersion : uint32_t;
  lp_implementationVersion : uint32_t;
  lp_description : string
}.

Record VkExtensionProperties := {
  extensionName : string;
  ep_specVersion : uint32_t
}.

Inductive VkStructureType :=
| VK_STRUCTURE_TYPE_APPLICATION_INFO
| VK_STRUCTURE_TYPE_INSTANCE_CREATE_INFO
| VK_STRUCTURE_TYPE_DEVICE_QUEUE_CREATE_INFO
| VK_STRUCTURE_TYPE_DEVICE_CREATE_INFO.

(** [VK_API_VERSION_1_0] is [VK_MAKE_VERSION(1, 0, 0)]. *)
Definition VK_API_VERSION_1_0 : uint32_t := N.shiftl 1 22.

(** Heap blocks are named by the order of their allocation. *)
Definition addr := nat.

(** An element of a [char**] array: uninitialised, or the address of a
    [char] array together with the C string it holds. *)
Definition c_string_slot := option (addr * string).

Record VkApplicationInfo := {
  ai_sType : VkStructureType;
  pApplicationName : string;
  applicationVersion : uint32_t;
  pEngineName : string;
  engineVersion : uint32_t;
  apiVersion : uint32_t
}.

Record VkInstanceCreateInfo := {
  ici_sType : VkStructureType;
  ici_flags : uint32_t;
  pApplicationInfo : VkApplicationInfo;
  ici_enabledLayerCount : uint32_t;
  ici_ppEnabledLayerNames : list c_string_slot;
  ici_enabledExtensionCount : uint32_t;
  ici_ppEnabledExtensionNames : list c_string_slot
}.

Record VkDeviceQueueCreateInfo := {
  qci_sType : VkStructureType;
  qci_flags : uint32_t;
  queueFamilyIndex : uint32_t;
  queueCount : uint32_t;
  pQueuePriorities : list Q
}.

Record VkDeviceCreateInfo := {
  dci_sType : VkStructureType;
  dci_flags : uint32_t;
  queueCreateInfoCount : uint32_t;
  pQueueCreateInfos : list VkDeviceQueueCreateInfo;
  dci_enabledLayerCount : uint32_t;
  dci_ppEnabledLayerNames : list c_string_slot;
  dci_enabledExtensionCount : uint32_t;
  dci_ppEnabledExtensionNames : list c_string_slot
}.

(** ** The wrapper classes of vulkan.h *)

Module Surface.
Record t := mk { surface : VkSurfaceKHR }.
End Surface.

Module LogicalDevice.
Record t := mk { device : VkDevice; queue_family_index : uint32_t }.
End LogicalDevice.

Module PhysicalDevice.
Record t := mk { physical_device : VkPhysicalDevice; queue_family_index : uint32_t }.
End PhysicalDevice.

Module Instance.
Record t := mk { instance : VkInstance }.
End Instance.

(** [class IRequestLayerAndExtensions] and [class ICreateInstanceParameters]:
    interfaces of [const] getters. *)
Class IRequestLayerAndExtensions (P : Type) := {
  get_requested_layers : P -> list LayerInfo.t;
  get_requested_extensions : P -> list ExtensionInfo.t
}.

Class ICreateInstanceParameters (P : Type) `{IRequestLayerAndExtensions P} := {
  get_application_name : P -> string;
  get_application_version : P -> Z;
  get_engine_name : P -> string;
  get_engine_version : P -> Z
}.

(** ** The driver and the window layer

    An enumeration entry point is called with a null array to ask for the
    count ([None]) or with an array of [capacity] elements ([Some capacity]).
    Its reply is the result code, the value it leaves in the count variable
    and the elements it wrote at the start of the array. *)

Record EnumReply (R A : Type) := {
  reply_result : R;
  reply_count : uint32_t;
  reply_written : list A
}.
Arguments reply_result {R A} _.
Arguments reply_count {R A} _.
Arguments reply_written {R A} _.

(** The entry points, over a driver state [D] of the collaborator's own.
    [vkGetPhysicalDeviceSurfaceSupportKHR] replies with what it stored
    through [pSupported], if it stored anything. *)
Record Driver (D : Type) := {
  vkEnumerateInstanceLayerProperties :
    option uint32_t -> D -> EnumReply VkResult VkLayerProperties * D;
  vkEnumerateInstanceExtensionProperties :
    option uint32_t -> D -> EnumReply VkResult VkExtensionProperties * D;
  SDL_Vulkan_GetInstanceExtensions :
    SDL_Window -> option uint32_t -> D -> EnumReply SDL_bool string * D;
  vkCreateInstance :
    VkInstanceCreateInfo -> D -> (VkResult * VkInstance) * D;
  vkEnumeratePhysicalDevices :
    VkInstance -> option uint32_t -> D -> EnumReply VkResult VkPhysicalDevice * D;
  vkEnumerateDeviceExtensionProperties :
    VkPhysicalDevice -> option uint32_t -> D ->
    EnumReply VkResult VkExtensionProperties * D;
  vkCreateDevice :
    VkPhysicalDevice -> VkDeviceCreateInfo -> D -> (VkResult * VkDevice) * D;
  vkGetPhysicalDeviceSurfaceSupportKHR :
    VkPhysicalDevice -> uint32_t -> VkSurfaceKHR -> D ->
    (VkResult * option VkBool32) * D
}.
Arguments vkEnumerateInstanceLayerProperties {D} _.
Arguments vkEnumerateInstanceExtensionProperties {D} _.
Arguments SDL_Vulkan_GetInstanceExtensions {D} _.
Arguments vkCreateInstance {D} _.
Arguments vkEnumeratePhysicalDevices {D} _.
Arguments vkEnumerateDeviceExtensionProperties {D} _.
Arguments vkCreateDevice {D} _.
Arguments vkGetPhysicalDeviceSurfaceSupportKHR {D} _.

(** The calls a function made, in order, with their arguments. *)
Inductive DriverCall :=
| Call_vkEnumerateInstanceLayerProperties (array : option uint32_t)
| Call_vkEnumerateInstanceExtensionProperties (array : option uint32_t)
| Call_SDL_Vulkan_GetInstanceExtensions (window : SDL_Window) (array : option uint32_t)
| Call_vkCreateInstance (create_info : VkInstanceCreateInfo)
| Call_vkEnumeratePhysicalDevices (instance : VkInstance) (array : option uint32_t)
| Call_vkEnumerateDeviceExtensionProperties
    (physical_device : VkPhysicalDevice) (array : option uint32_t)
| Call_vkCreateDevice (physical_device : VkPhysicalDevice) (create_info : VkDeviceCreateInfo)
| Call_vkGetPhysicalDeviceSurfaceSupportKHR
    (physical_device : VkPhysicalDevice) (queue_family_index : uint32_t)
    (surface : VkSurfaceKHR).

(** ** The computation monad *)

Record World (D : Type) := {
  driver_state : D;
  live : list addr;        (* heap blocks allocated and not yet released *)
  next_addr : addr;
  trace : list DriverCall
}.
Arguments driver_state {D} _.
Arguments live {D} _.
Arguments next_addr {D} _.
Arguments trace {D} _.

Inductive outcome (A : Type) :=
| Returned (a : A)
| Thrown (e : exception)
| Undefined.
Arguments Returned {A} _.
Arguments Thrown {A} _.
Arguments Undefined {A}.

Definition M (D A : Type) : Type := World D -> outcome A * World D.

#[export] Instance M_ret {D} : MRet (M D) := fun A a w => (Returned a, w).

#[export] Instance M_bind {D} : MBind (M D) := fun A B f m w =>
  match m w with
  | (Returned a, w') => f a w'
  | (Thrown e, w') => (Thrown e, w')
  | (Undefined, w') => (Undefined, w')
  end.

Definition throw {D A} (e : exception) : M D A := fun w => (Thrown e, w).

Definition undefined {D A} : M D A := fun w => (Undefined, w).

(** A call of an entry point: the driver moves to its next state and the
    call is appended to the trace. *)
Definition call {D R} (c : DriverCall) (entry : D -> R * D) : M D R := fun w =>
  let '(r, d') := entry (driver_state w) in
  (Returned r,
   {| driver_state := d'; live := live w; next_addr := next_addr w;
      trace := trace w ++ [c] |}).

(** [new T[n]]: a fresh block.  Allocation failure is not modelled. *)
Definition new_array {D} : M D addr := fun w =>
  (Returned (next_addr w),
   {| driver_state := driver_state w; live := next_addr w :: live w;
      next_addr := S (next_addr w); trace := trace w |}).

(** [delete[] p]: undefined unless [p] is a live block. *)
Definition delete_array {D} (p : addr) : M D unit := fun w =>
  if decide (p ∈ live w) then
    (Returned tt,
     {| driver_state := driver_state w; live := filter (λ q, q ≠ p) (live w);
        next_addr := next_addr w; trace := trace w |})
  else (Undefined, w).

(** The elements of an array of [capacity] elements that hold a value after
    the driver wrote [written] at its start. *)
Definition array_after_write {A} (capacity : uint32_t) (written : list A) : list A :=
  take (N.to_nat capacity) written.

(** [array[i]]: undefined past the end of the array and on an element that
    was never written. *)
Definition array_read {D A} (array : list A) (i : nat) : M D A :=
  match array !! i with
  | Some x => mret x
  | None => undefined
  end.

(** A local object with a destructor: the destructor runs when the scope
    is left, by [return] or by an exception passing through. *)
Definition scoped {D R A} (ctor : M D R) (dtor : R -> M D unit) (body : R -> M D A)
  : M D A := fun w =>
  match ctor w with
  | (Returned r, w1) =>
      match body r w1 with
      | (Returned a, w2) =>
          match dtor r w2 with
          | (Returned _, w3) => (Returned a, w3)
          | (Thrown e, w3) => (Thrown e, w3)
          | (Undefined, w3) => (Undefined, w3)
          end
      | (Thrown e, w2) =>
          match dtor r w2 with
          | (Returned _, w3) => (Thrown e, w3)
          | (_, w3) => (Undefined, w3)
          end
      | (Undefined, w2) => (Undefined, w2)
      end
  | (Thrown e, w1) => (Thrown e, w1)
  | (Undefined, w1) => (Undefined, w1)
  end.

(** [for (size_t i = first; i < first + iterations; ++i) body], the state
    of the loop being the variables the body updates. *)
Fixpoint for_loop {D St} (first iterations : nat) (body : nat -> St -> M D St) (s : St)
  : M D St :=
  match iterations with
  | O => mret s
  | S iterations => s ← body first s; for_loop (S first) iterations body s
  end.

(** Writing the range [src] through an iterator to the start of the vector
    [dst]: undefined when the vector is too short. *)
Definition copy_into {A} (src dst : list A) : option (list A) :=
  if decide (length src ≤ length dst) then Some (src ++ drop (length src) dst)
  else None.

(** ** The implementation of vulkan.h *)

Section vulkan.
Context {D : Type} (drv : Driver D).

(** [bool PhysicalDevice::is_surface_supported(const Surface&)] *)
Definition is_surface_supported (this : PhysicalDevice.t) (surface : Surface.t)
  : M D bool :=
  let supported : VkBool32 := 0%N in
  '(_, stored) ← call
     (Call_vkGetPhysicalDeviceSurfaceSupportKHR
        (PhysicalDevice.physical_device this)
        (PhysicalDevice.queue_family_index this)
        (Surface.surface surface))
     (vkGetPhysicalDeviceSurfaceSupportKHR drv
        (PhysicalDevice.physical_device this)
        (PhysicalDevice.queue_family_index this)
        (Surface.surface surface));
  let supported := default supported stored in
  mret (negb (supported =? 0)%N).

(** The body of the loop of [get_layer_infos]. *)
Definition LayerInfo_of (p : VkLayerProperties) : LayerInfo.t :=
  {| LayerInfo.name := layerName p;
     LayerInfo.description := lp_description p;
     LayerInfo.specVersion := lp_specVersion p;
     LayerInfo.implementationVersion := lp_implementationVersion p |}.

(** [std::vector<LayerInfo> get_layer_infos()] *)
Definition get_layer_infos : M D (list LayerInfo.t) :=
  reply ← call (Call_vkEnumerateInstanceLayerProperties None)
                (vkEnumerateInstanceLayerProperties drv None);
  let result := reply_result reply in
  let instance_layer_count := reply_count reply in
  if decide (result ≠ VK_SUCCESS) then
    throw (VulkanException result "Error getting number of layers")
  else if decide (instance_layer_count = 0%N) then
    throw (runtime_error "Layer count non-positive")
  else
    layer_properties ← new_array;
    reply ← call (Call_vkEnumerateInstanceLayerProperties (Some instance_layer_count))
                  (vkEnumerateInstanceLayerProperties drv (Some instance_layer_count));
    let array := array_after_write instance_layer_count (reply_written reply) in
    let instance_layer_count := reply_count reply in
    layer_infos ← for_loop 0 (N.to_nat instance_layer_count)
      (λ i layer_infos, p ← array_read array i; mret (layer_infos ++ [LayerInfo_of p]))
      [];
    _ ← delete_array layer_properties;
    mret layer_infos.

(** The body of the loop of [get_extension_infos]. *)
Definition ExtensionInfo_of (p : VkExtensionProperties) : ExtensionInfo.t :=
  {| ExtensionInfo.name := extensionName p;
     ExtensionInfo.specVersion := ep_specVersion p |}.

(** [std::vector<ExtensionInfo> get_extension_infos()] *)
Definition get_extension_infos : M D (list ExtensionInfo.t) :=
  reply ← call (Call_vkEnumerateInstanceExtensionProperties None)
                (vkEnumerateInstanceExtensionProperties drv None);
  let result := reply_result reply in
  let num_properties := reply_count reply in
  if decide (result ≠ VK_SUCCESS) then
    throw (VulkanException result "Error getting number of extensions")
  else if decide (num_properties = 0%N) then
    throw (runtime_error "Extension count zero")
  else
    properties ← new_array;
    reply ← call (Call_vkEnumerateInstanceExtensionProperties (Some num_properties))
                  (vkEnumerateInstanceExtensionProperties drv (Some num_properties));
    let array := array_after_write num_properties (reply_written reply) in
    let num_properties := reply_count reply in
    infos ← for_loop 0 (N.to_nat num_properties)
      (λ i infos, p ← array_read array i; mret (infos ++ [ExtensionInfo_of p]))
      [];
    _ ← delete_array properties;
    mret infos.

(** [std::vector<std::string> get_extension_names(SDL_Window* window)] *)
Definition get_extension_names (window : SDL_Window) : M D (list string) :=
  reply ← call (Call_SDL_Vulkan_GetInstanceExtensions window None)
                (SDL_Vulkan_GetInstanceExtensions drv window None);
  let success := reply_result reply in
  let num_extensions := reply_count reply in
  if negb success then
    throw (runtime_error
      ("SDL_Vulkan failed to get number of instance extensions" +:+ String "010"%char ""))
  else
    extension_name_c_strings ← new_array;
    reply ← call (Call_SDL_Vulkan_GetInstanceExtensions window (Some num_extensions))
                  (SDL_Vulkan_GetInstanceExtensions drv window (Some num_extensions));
    let success := reply_result reply in
    let array := array_after_write num_extensions (reply_written reply) in
    let num_extensions := reply_count reply in
    if negb success then
      throw (runtime_error
        ("SDL_Vulkan failed to get names of instance extensions" +:+ String "010"%char ""))
    else
      extension_names ← for_loop 0 (N.to_nat num_extensions)
        (λ i extension_names, name ← array_read array i; mret (extension_names ++ [name]))
        [];
      _ ← delete_array extension_name_c_strings;
      mret extension_names.

(** [template<typename Info> struct NamesArray] *)
Record NamesArray := {
  count : uint32_t;
  c_strings : addr;
  c_strings_elements : list c_string_slot
}.

(** The loop of the constructor: one [char] array per name, stored at
    [c_strings[count]], then [count++]. *)
Fixpoint NamesArray_fill {Info} `{Named Info} (infos : list Info) (this : NamesArray)
  : M D NamesArray :=
  match infos with
  | [] => mret this
  | info :: infos =>
      block ← new_array;
      NamesArray_fill infos
        {| count := uint32_succ (count this);
           c_strings := c_strings this;
           c_strings_elements :=
             <[N.to_nat (count this) := Some (block, name_of info)]>
               (c_strings_elements this) |}
  end.

(** [explicit NamesArray(const std::vector<Info>& infos)] *)
Definition NamesArray_ctor {Info} `{Named Info} (infos : list Info) : M D NamesArray :=
  c_strings ← new_array;
  NamesArray_fill infos
    {| count := 0%N; c_strings := c_strings;
       c_strings_elements := replicate (length infos) None |}.

(** The loop of the destructor, [count] iterations. *)
Fixpoint NamesArray_release (elements : list c_string_slot) (count : nat) : M D unit :=
  match count with
  | O => mret tt
  | S count =>
      slot ← array_read elements count;
      _ ← match slot with
           | Some (block, _) => delete_array block
           | None => undefined
           end;
      NamesArray_release elements count
  end.

(** [~NamesArray()] *)
Definition NamesArray_dtor (this : NamesArray) : M D unit :=
  _ ← NamesArray_release (c_strings_elements this) (N.to_nat (count this));
  delete_array (c_strings this).

(** [Instance::Instance(const ICreateInstanceParameters&)] *)
Definition Instance_ctor {P} `{ICreateInstanceParameters P} (parameters : P)
  : M D Instance.t :=
  scoped (NamesArray_ctor (get_requested_layers parameters)) NamesArray_dtor
    (λ requested_layer_names,
  scoped (NamesArray_ctor (get_requested_extensions parameters)) NamesArray_dtor
    (λ requested_extension_names,
  let application_name := get_application_name parameters in
  let application_version := get_application_version parameters in
  let engine_name := get_engine_name parameters in
  let engine_version := get_engine_version parameters in
  let app_info :=
    {| ai_sType := VK_STRUCTURE_TYPE_APPLICATION_INFO;
       pApplicationName := application_name;
       applicationVersion := uint32_of_int application_version;
       pEngineName := engine_name;
       engineVersion := uint32_of_int engine_version;
       apiVersion := VK_API_VERSION_1_0 |} in
  let create_info :=
    {| ici_sType := VK_STRUCTURE_TYPE_INSTANCE_CREATE_INFO;
       ici_flags := 0%N;
       pApplicationInfo := app_info;
       ici_enabledExtensionCount := count requested_extension_names;
       ici_ppEnabledExtensionNames := c_strings_elements requested_extension_names;
       ici_enabledLayerCount := count requested_layer_names;
       ici_ppEnabledLayerNames := c_strings_elements requested_layer_names |} in
  '(result, instance) ← call (Call_vkCreateInstance create_info)
                              (vkCreateInstance drv create_info);
  if decide (result ≠ VK_SUCCESS) then
    throw (VulkanException result "Error while creating vulkan instance")
  else mret (Instance.mk instance))).

(** [PhysicalDevice Instance::select_gpu()] *)
Definition select_gpu (this : Instance.t) : M D PhysicalDevice.t :=
  reply ← call (Call_vkEnumeratePhysicalDevices (Instance.instance this) None)
                (vkEnumeratePhysicalDevices drv (Instance.instance this) None);
  let result := reply_result reply in
  let num_physical_devices := reply_count reply in
  if decide (result ≠ VK_SUCCESS) then
    throw (VulkanException result "Error getting number of physical devices")
  else
    physicalDevices ← new_array;
    reply ← call
      (Call_vkEnumeratePhysicalDevices (Instance.instance this) (Some num_physical_devices))
      (vkEnumeratePhysicalDevices drv (Instance.instance this) (Some num_physical_devices));
    let result := reply_result reply in
    let array := array_after_write num_physical_devices (reply_written reply) in
    if decide (result ≠ VK_SUCCESS) then
      throw (VulkanException result "Error getting list of physical devices")
    else
      let index : Z := 0%Z in
      selected ← array_read array (Z.to_nat index);
      _ ← delete_array physicalDevices;
      mret (PhysicalDevice.mk selected (uint32_of_int index)).

(** [LogicalDevice PhysicalDevice::create_logical_device(
      const IRequestLayerAndExtensions&)].
    The sizes of the two sets are [size_t]; the found names are among the
    requested ones, so the subtraction does not wrap. *)
Definition create_logical_device {P} `{IRequestLayerAndExtensions P}
    (this : PhysicalDevice.t) (parameters : P) : M D LogicalDevice.t :=
  let physical_device := PhysicalDevice.physical_device this in
  let queue_family_index := PhysicalDevice.queue_family_index this in
  reply ← call (Call_vkEnumerateDeviceExtensionProperties physical_device None)
                (vkEnumerateDeviceExtensionProperties drv physical_device None);
  let result := reply_result reply in
  let num_device_extension_properties := reply_count reply in
  if decide (result ≠ VK_SUCCESS) then
    throw (VulkanException result
             "Error while getting size of properties list for device")
  else if decide (num_device_extension_properties = 0%N) then
    throw (runtime_error "No properties array found for physical device")
  else
    extension_properties ← new_array;
    reply ← call
      (Call_vkEnumerateDeviceExtensionProperties physical_device
         (Some num_device_extension_properties))
      (vkEnumerateDeviceExtensionProperties drv physical_device
         (Some num_device_extension_properties));
    let result := reply_result reply in
    let array := array_after_write num_device_extension_properties (reply_written reply) in
    let num_device_extension_properties := reply_count reply in
    if decide (result ≠ VK_SUCCESS) then
      throw (VulkanException result
               "Error while getting list of device extension properties")
    else
      let requested_extensions := get_requested_extensions parameters in
      let requested_extension_name_set :=
        foldl (λ set info, StdSet.insert (ExtensionInfo.name info) set)
              StdSet.empty requested_extensions in
      found_extension_names ← for_loop 0 (N.to_nat num_device_extension_properties)
        (λ i found_extension_names,
           p ← array_read array i;
           let extension_name := extensionName p in
           if StdSet.find extension_name requested_extension_name_set
           then mret (StdSet.insert extension_name found_extension_names)
           else mret found_extension_names)
        StdSet.empty;
      if decide (StdSet.size found_extension_names
                 ≠ StdSet.size requested_extension_name_set) then
        let not_found_names :=
          replicate (StdSet.size requested_extension_name_set
                     - StdSet.size found_extension_names) "" in
        match copy_into
                (StdSet.set_difference requested_extension_name_set found_extension_names)
                not_found_names with
        | None => undefined
        | Some not_found_names =>
            let not_found_names_str :=
              foldl (λ str name, str +:+ (" " +:+ name)) "" not_found_names in
            throw (runtime_error ("Not all extensions found:" +:+ not_found_names_str))
        end
      else
        scoped (NamesArray_ctor (get_requested_layers parameters)) NamesArray_dtor
          (λ requested_layer_names,
        scoped (NamesArray_ctor requested_extensions) NamesArray_dtor
          (λ requested_extension_names,
        let queue_create_info :=
          {| qci_sType := VK_STRUCTURE_TYPE_DEVICE_QUEUE_CREATE_INFO;
             queueFamilyIndex := queue_family_index;
             queueCount := 1%N;
             pQueuePriorities := [1%Q];
             qci_flags := 0%N |} in
        let create_info :=
          {| dci_sType := VK_STRUCTURE_TYPE_DEVICE_CREATE_INFO;
             queueCreateInfoCount := 1%N;
             pQueueCreateInfos := [queue_create_info];
             dci_enabledLayerCount := count requested_layer_names;
             dci_ppEnabledLayerNames := c_strings_elements requested_layer_names;
             dci_enabledExtensionCount := count requested_extension_names;
             dci_ppEnabledExtensionNames := c_strings_elements requested_extension_names;
             dci_flags := 0%N |} in
        '(result, device) ← call (Call_vkCreateDevice physical_device create_info)
                                  (vkCreateDevice drv physical_device create_info);
        if decide (result ≠ VK_SUCCESS) then
          throw (VulkanException result "Error while creating logical devive")
        else
          _ ← delete_array extension_properties;
          mret (LogicalDevice.mk device queue_family_index))).

End vulkan.

(** ** test.cpp *)

(** [class CreateInstanceParameters : public ICreateInstanceParameters] *)
Module CreateInstanceParameters.
Record t := mk {
  requested_layers : list LayerInfo.t;
  requested_extensions : list ExtensionInfo.t
}.
End CreateInstanceParameters.

#[export] Instance CreateInstanceParameters_request
  : IRequestLayerAndExtensions CreateInstanceParameters.t := {|
  get_requested_layers := CreateInstanceParameters.requested_layers;
  get_requested_extensions := CreateInstanceParameters.requested_extensions
|}.

#[export] Instance CreateInstanceParameters_identity
  : ICreateInstanceParameters CreateInstanceParameters.t := {|
  get_application_name := λ _, "My Application";
  get_application_version := λ _, 0%Z;
  get_engine_name := λ _, "Cello";
  get_engine_version := λ _, 0%Z
|}.

(** [class CreateLogicalDeviceParameters : public IRequestLayerAndExtensions] *)
Module CreateLogicalDeviceParameters.
Record t := mk {
  requested_layers : list LayerInfo.t;
  requested_extensions : list ExtensionInfo.t
}.
End CreateLogicalDeviceParameters.

#[export] Instance CreateLogicalDeviceParameters_request
  : IRequestLayerAndExtensions CreateLogicalDeviceParameters.t := {|
  get_requested_layers := CreateLogicalDeviceParameters.requested_layers;
  get_requested_extensions := CreateLogicalDeviceParameters.requested_extensions
|}.

(** [template<typename Info> std::vector<Info> filter_by_name(
      const std::vector<Info>& infos, const std::vector<std::string>& names_vec)] *)
Definition filter_by_name {Info} `{Named Info}
    (infos : list Info) (names_vec : list string) : list Info :=
  let names := foldl (λ names name, StdSet.insert name names) StdSet.empty names_vec in
  foldl (λ result_infos info,
           if StdSet.find (name_of info) names
           then result_infos ++ [info]
           else result_infos)
        [] infos.

(** ** Surface creation

    [Instance::create_surface] and the helper [string_format] it uses for
    its message.  [snprintf] belongs to the C library: for a format and its
    arguments it either fails (a negative return value, [None]) or formats
    a text, returns the length of that text and stores as much of it as
    the buffer holds.  [SDL_Vulkan_CreateSurface] belongs to the window
    layer; it is called on the collaborator's state like the entry points
    of [Driver]. *)

Definition INT_MAX : Z := 2147483647.

(** A call of an entry point that the trace of driver calls has no name
    for: the collaborator moves to its next state. *)
Definition window_call {D R} (entry : D -> R * D) : M D R := fun w =>
  let '(r, d') := entry (driver_state w) in
  (Returned r,
   {| driver_state := d'; live := live w; next_addr := next_addr w;
      trace := trace w |}).

Section surface.
Context {D : Type}.
Context (snprintf : ∀ Args : Type, string -> Args -> option string).
Context (SDL_Vulkan_CreateSurface :
           SDL_Window -> VkInstance -> D -> (SDL_bool * VkSurfaceKHR) * D).

(** The value [snprintf] returns. *)
Definition snprintf_result {Args} (format : string) (args : Args) : Z :=
  match snprintf Args format args with
  | None => -1
  | Some text => Z.of_nat (String.length text)
  end.

(** [template<typename ... Args> std::string string_format(
      const std::string& format, Args ... args)].
    [size] is an [int]: the addition overflows on [INT_MAX]. *)
Definition string_format {Args} (format : string) (args : Args) : M D string :=
  let written := snprintf_result format args in
  if decide (written = INT_MAX) then undefined
  else
    let size := (written + 1)%Z in
    if decide (size ≤ 0)%Z then throw (runtime_error "Error during formatting.")
    else
      buf ← new_array;
      match snprintf Args format args with
      | None => undefined
      | Some text =>
          let s := String.substring 0 (Z.to_nat (size - 1)) text in
          _ ← delete_array buf;
          mret s
      end.

(** [Surface Instance::create_surface(SDL_Window* window)] *)
Definition create_surface (this : Instance.t) (window : SDL_Window) : M D Surface.t :=
  '(created, surface) ← window_call
     (SDL_Vulkan_CreateSurface window (Instance.instance this));
  if negb created then
    what ← string_format "SDL could not create surface with window: %p" window;
    throw (runtime_error what)
  else mret (Surface.mk surface).

End surface.

(** ** Heap bookkeeping used by the statements *)

(** The object the constructor of [NamesArray] builds when the next fresh
    block is [c]: the array of pointers is block [c], the name of the
    [i]-th element is in block [S c + i]. *)
Definition NamesArray_built {Info} `{Named Info} (c : addr) (infos : list Info)
  : NamesArray :=
  {| count := N.of_nat (length infos); c_strings := c;
     c_strings_elements := imap (λ i info, Some (S c + i, name_of info)) infos |}.

(** Every live block was allocated before [next_addr]. *)
Definition heap_wf {D} (w : World D) : Prop :=
  Forall (λ p, p < next_addr w) (live w).


(** The record [Instance_ctor] passes to [vkCreateInstance] when the next
    fresh block is [c]. *)
Definition instance_create_info {P} `{ICreateInstanceParameters P}
    (parameters : P) (c : addr) : VkInstanceCreateInfo :=
  let layers := NamesArray_built c (get_requested_layers parameters) in
  let extensions :=
    NamesArray_built (c + S (length (get_requested_layers parameters)))
      (get_requested_extensions parameters) in
  {| ici_sType := VK_STRUCTURE_TYPE_INSTANCE_CREATE_INFO;
     ici_flags := 0;
     pApplicationInfo :=
       {| ai_sType := VK_STRUCTURE_TYPE_APPLICATION_INFO;
          pApplicationName := get_application_name parameters;
          applicationVersion := uint32_of_int (get_application_version parameters);
          pEngineName := get_engine_name parameters;
          engineVersion := uint32_of_int (get_engine_version parameters);
          apiVersion := VK_API_VERSION_1_0 |};
     ici_enabledExtensionCount := count extensions;
     ici_ppEnabledExtensionNames := c_strings_elements extensions;
     ici_enabledLayerCount := count layers;
     ici_ppEnabledLayerNames := c_strings_elements layers |}.

(** The two sets of [create_logical_device]: the requested names, and the
    requested names met while going through the supported extensions. *)
Definition requested_name_set (requested : list ExtensionInfo.t) : StdSet.t :=
  foldl (λ set info, StdSet.insert (ExtensionInfo.name info) set) StdSet.empty requested.

Definition found_name_set (requested : StdSet.t) (supported : list VkExtensionProperties)
  : StdSet.t :=
  foldl (λ found p,
           if StdSet.find (extensionName p) requested
           then StdSet.insert (extensionName p) found
           else found)
        StdSet.empty supported.

(** The text [create_logical_device] appends to its message. *)
Definition not_found_names_str (not_found_names : list string) : string :=
  foldl (λ str name, str +:+ (" " +:+ name)) "" not_found_names.


(** The record [create_logical_device] passes to [vkCreateDevice] when the
    next fresh block is [c]. *)
Definition device_create_info {P} `{IRequestLayerAndExtensions P}
    (this : PhysicalDevice.t) (parameters : P) (c : addr) : VkDeviceCreateInfo :=
  let layers := NamesArray_built c (get_requested_layers parameters) in
  let extensions :=
    NamesArray_built (c + S (length (get_requested_layers parameters)))
      (get_requested_extensions parameters) in
  {| dci_sType := VK_STRUCTURE_TYPE_DEVICE_CREATE_INFO;
     queueCreateInfoCount := 1;
     pQueueCreateInfos :=
       [ {| qci_sType := VK_STRUCTURE_TYPE_DEVICE_QUEUE_CREATE_INFO;
            queueFamilyIndex := PhysicalDevice.queue_family_index this;
            queueCount := 1;
            pQueuePriorities := [1%Q];
            qci_flags := 0 |} ];
     dci_enabledLayerCount := count layers;
     dci_ppEnabledLayerNames := c_strings_elements layers;
     dci_enabledExtensionCount := count extensions;
     dci_ppEnabledExtensionNames := c_strings_elements extensions;
     dci_flags := 0 |}.


(** ** Scripted drivers

    A driver whose replies are fixed in advance, one for each entry point
    and, for an enumeration, one for the count call and one for the fill
    call.  It keeps no state.  [honest] is the script of a driver that
    reports the same lists at every call. *)

Module Script.

Record t := {
  layers_count : EnumReply VkResult VkLayerProperties;
  layers_fill : EnumReply VkResult VkLayerProperties;
  extensions_count : EnumReply VkResult VkExtensionProperties;
  extensions_fill : EnumReply VkResult VkExtensionProperties;
  window_count : EnumReply SDL_bool string;
  window_fill : EnumReply SDL_bool string;
  create_instance : VkResult * VkInstance;
  devices_count : EnumReply VkResult VkPhysicalDevice;
  devices_fill : EnumReply VkResult VkPhysicalDevice;
  device_extensions_count : EnumReply VkResult VkExtensionProperties;
  device_extensions_fill : EnumReply VkResult VkExtensionProperties;
  create_device : VkResult * VkDevice;
  surface_support : VkResult * option VkBool32
}.

Definition pick {A} (array : option uint32_t) (count_reply fill_reply : A) : A :=
  match array with None => count_reply | Some _ => fill_reply end.

Definition driver (s : t) : Driver unit := {|
  vkEnumerateInstanceLayerProperties array d :=
    (pick array (layers_count s) (layers_fill s), d);
  vkEnumerateInstanceExtensionProperties array d :=
    (pick array (extensions_count s) (extensions_fill s), d);
  SDL_Vulkan_GetInstanceExtensions _ array d :=
    (pick array (window_count s) (window_fill s), d);
  vkCreateInstance _ d := (create_instance s, d);
  vkEnumeratePhysicalDevices _ array d :=
    (pick array (devices_count s) (devices_fill s), d);
  vkEnumerateDeviceExtensionProperties _ array d :=
    (pick array (device_extensions_count s) (device_extensions_fill s), d);
  vkCreateDevice _ _ d := (create_device s, d);
  vkGetPhysicalDeviceSurfaceSupportKHR _ _ _ d := (surface_support s, d)
|}.

Definition counted {R A} (ok : R) (available : list A) : EnumReply R A :=
  {| reply_result := ok; reply_count := N.of_nat (length available);
     reply_written := [] |}.

Definition filled {R A} (ok : R) (available : list A) : EnumReply R A :=
  {| reply_result := ok; reply_count := N.of_nat (length available);
     reply_written := available |}.

Definition honest
    (layers : list VkLayerProperties) (extensions : list VkExtensionProperties)
    (window_names : list string) (devices : list VkPhysicalDevice)
    (device_extensions : list VkExtensionProperties)
    (instance_created : VkResult * VkInstance) (device_created : VkResult * VkDevice)
    (supported : VkResult * option VkBool32) : t := {|
  layers_count := counted VK_SUCCESS layers;
  layers_fill := filled VK_SUCCESS layers;
  extensions_count := counted VK_SUCCESS extensions;
  extensions_fill := filled VK_SUCCESS extensions;
  window_count := counted true window_names;
  window_fill := filled true window_names;
  create_instance := instance_created;
  devices_count := counted VK_SUCCESS devices;
  devices_fill := filled VK_SUCCESS devices;
  device_extensions_count := counted VK_SUCCESS device_extensions;
  device_extensions_fill := filled VK_SUCCESS device_extensions;
  create_device := device_created;
  surface_support := supported
|}.

(** The world before the first call: nothing allocated, nothing traced. *)
Definition start : World unit :=
  {| driver_state := tt; live := []; next_addr := 0; trace := [] |}.

(** The same script with other replies of one entry point. *)
Definition with_layers (count_reply fill_reply : EnumReply VkResult VkLayerProperties)
    (s : t) : t := {|
  layers_count := count_reply;
  layers_fill := fill_reply;
  extensions_count := extensions_count s;
  extensions_fill := extensions_fill s;
  window_count := window_count s;
  window_fill := window_fill s;
  create_instance := create_instance s;
  devices_count := devices_count s;
  devices_fill := devices_fill s;
  device_extensions_count := device_extensions_count s;
  device_extensions_fill := device_extensions_fill s;
  create_device := create_device s;
  surface_support := surface_support s
|}.

Definition with_extensions
    (count_reply fill_reply : EnumReply VkResult VkExtensionProperties) (s : t) : t := {|
  layers_count := layers_count s;
  layers_fill := layers_fill s;
  extensions_count := count_reply;
  extensions_fill := fill_reply;
  window_count := window_count s;
  window_fill := window_fill s;
  create_instance := create_instance s;
  devices_count := devices_count s;
  devices_fill := devices_fill s;
  device_extensions_count := device_extensions_count s;
  device_extensions_fill := device_extensions_fill s;
  create_device := create_device s;
  surface_support := surface_support s
|}.

End Script.

(** A machine to run the examples on: one validation layer, three instance
    extensions, a window that needs two of them, three accelerators. *)
Module Fixture.

Definition validation : VkLayerProperties :=
  {| layerName := "VK_LAYER_KHRONOS_validation"; lp_specVersion := 4202627;
     lp_implementationVersion := 1; lp_description := "Khronos Validation Layer" |}.

Definition surface : VkExtensionProperties :=
  {| extensionName := "VK_KHR_surface"; ep_specVersion := 25 |}.
Definition xcb_surface : VkExtensionProperties :=
  {| extensionName := "VK_KHR_xcb_surface"; ep_specVersion := 6 |}.
Definition swapchain : VkExtensionProperties :=
  {| extensionName := "VK_KHR_swapchain"; ep_specVersion := 70 |}.
Definition maintenance1 : VkExtensionProperties :=
  {| extensionName := "VK_KHR_maintenance1"; ep_specVersion := 2 |}.

(** The accelerators [A; B; C], the instance and the device handles. *)
Definition accelerators : list VkPhysicalDevice := [7; 8; 9]%N.
Definition the_instance : VkInstance := 1%N.
Definition the_device : VkDevice := 2%N.

Definition script (window_names : list string)
    (device_extensions : list VkExtensionProperties)
    (instance_result device_result : VkResult)
    (supported : VkResult * option VkBool32) : Script.t :=
  Script.honest [validation] [surface; xcb_surface; swapchain] window_names
    accelerators device_extensions
    (instance_result, the_instance) (device_result, the_device) supported.

(** A machine on which everything succeeds. *)
Definition working : Script.t :=
  script ["VK_KHR_surface"; "VK_KHR_xcb_surface"] [swapchain; maintenance1]
    VK_SUCCESS VK_SUCCESS (VK_SUCCESS, Some 1%N).

(** The request of [main] for the logical device, and one with a layer. *)
Definition swapchain_request : CreateLogicalDeviceParameters.t :=
  CreateLogicalDeviceParameters.mk [] [ExtensionInfo_of swapchain].
Definition layered_request : CreateLogicalDeviceParameters.t :=
  CreateLogicalDeviceParameters.mk [LayerInfo_of validation] [ExtensionInfo_of swapchain].

End Fixture.

(** Machines that misbehave at one entry point: the script of another
    machine with other replies of the window query, of the enumeration of
    the accelerators, or of the enumeration of the device extensions. *)
Module Faulty.

Definition window (count_reply fill_reply : EnumReply SDL_bool string)
    (s : Script.t) : Script.t := {|
  Script.layers_count := Script.layers_count s;
  Script.layers_fill := Script.layers_fill s;
  Script.extensions_count := Script.extensions_count s;
  Script.extensions_fill := Script.extensions_fill s;
  Script.window_count := count_reply;
  Script.window_fill := fill_reply;
  Script.create_instance := Script.create_instance s;
  Script.devices_count := Script.devices_count s;
  Script.devices_fill := Script.devices_fill s;
  Script.device_extensions_count := Script.device_extensions_count s;
  Script.device_extensions_fill := Script.device_extensions_fill s;
  Script.create_device := Script.create_device s;
  Script.surface_support := Script.surface_support s
|}.

Definition devices (count_reply fill_reply : EnumReply VkResult VkPhysicalDevice)
    (s : Script.t) : Script.t := {|
  Script.layers_count := Script.layers_count s;
  Script.layers_fill := Script.layers_fill s;
  Script.extensions_count := Script.extensions_count s;
  Script.extensions_fill := Script.extensions_fill s;
  Script.window_count := Script.window_count s;
  Script.window_fill := Script.window_fill s;
  Script.create_instance := Script.create_instance s;
  Script.devices_count := count_reply;
  Script.devices_fill := fill_reply;
  Script.device_extensions_count := Script.device_extensions_count s;
  Script.device_extensions_fill := Script.device_extensions_fill s;
  Script.create_device := Script.create_device s;
  Script.surface_support := Script.surface_support s
|}.

Definition device_extensions
    (count_reply fill_reply : EnumReply VkResult VkExtensionProperties)
    (s : Script.t) : Script.t := {|
  Script.layers_count := Script.layers_count s;
  Script.layers_fill := Script.layers_fill s;
  Script.extensions_count := Script.extensions_count s;
  Script.extensions_fill := Script.extensions_fill s;
  Script.window_count := Script.window_count s;
  Script.window_fill := Script.window_fill s;
  Script.create_instance := Script.create_instance s;
  Script.devices_count := Script.devices_count s;
  Script.devices_fill := Script.devices_fill s;
  Script.device_extensions_count := count_reply;
  Script.device_extensions_fill := fill_reply;
  Script.create_device := Script.create_device s;
  Script.surface_support := Script.surface_support s
|}.

(** The C library of the examples prints a pointer as a fixed text; the
    window layer of the examples creates the surface 3 or refuses. *)
Definition snprintf (fails : bool) (Args : Type) (format : string) (args : Args)
  : option string :=
  if fails then None else Some "SDL could not create surface with window: 0x5".

Definition SDL_Vulkan_CreateSurface (created : SDL_bool)
    (window : SDL_Window) (instance : VkInstance) (d : unit)
  : (SDL_bool * VkSurfaceKHR) * unit :=
  ((created, 3%N), d).

End Faulty.

(** * Facts *)

(** ** The order on strings *)

Module StringOrderFacts.
Import StringOrder.

Lemma lt_iff a b : lt a b <-> OrderedTypeEx.String_as_OT.lt a b.
Proof. apply OrderedTypeEx.String_as_OT.cmp_lt. Qed.

Lemma compare_refl a : String.compare a a = Eq.
Proof. by apply OrderedTypeEx.String_as_OT.cmp_eq. Qed.

Lemma compare_Eq a b : String.compare a b = Eq -> a = b.
Proof. apply String.compare_eq_iff. Qed.

Lemma compare_Gt a b : String.compare a b = Gt -> lt b a.
Proof. intros Hc. unfold lt. by rewrite String.compare_antisym, Hc. Qed.

Lemma lt_irrefl a : ~ lt a a.
Proof. unfold lt. by rewrite compare_refl. Qed.

Lemma lt_trans a b c : lt a b -> lt b c -> lt a c.
Proof. rewrite !lt_iff. apply OrderedTypeEx.String_as_OT.lt_trans. Qed.

Lemma lt_asym a b : lt a b -> ~ lt b a.
Proof. intros Hab Hba. exact (lt_irrefl a (lt_trans _ _ _ Hab Hba)). Qed.

Lemma lt_Gt a b : lt b a -> String.compare a b = Gt.
Proof.
  intros Hba. destruct (String.compare a b) eqn:Hc; [| |done].
  - apply compare_Eq in Hc as ->. by destruct (lt_irrefl b).
  - by destruct (lt_asym a b).
Qed.

#[export] Instance lt_transitive : Transitive lt.
Proof. intros a b c. apply lt_trans. Qed.

End StringOrderFacts.

(** ** [std::set<std::string>] *)

Module StdSetFacts.
Import StringOrder StringOrderFacts StdSet.

Lemma wf_cons x s : wf (x :: s) <-> wf s ∧ Forall (lt x) s.
Proof.
  unfold wf. split.
  - intros Hwf. by inversion Hwf.
  - intros [? ?]. by constructor.
Qed.

Lemma wf_NoDup s : wf s -> NoDup s.
Proof.
  induction s as [|x s IH]; [constructor|].
  rewrite wf_cons. intros [Hs Hx]. constructor; [|by apply IH].
  intros Hin. rewrite Forall_forall in Hx.
  exact (lt_irrefl x (Hx x Hin)).
Qed.

Lemma elem_of_insert x y s : y ∈ insert x s <-> y = x ∨ y ∈ s.
Proof.
  induction s as [|z s IH]; simpl.
  - rewrite elem_of_cons, elem_of_nil. tauto.
  - destruct (String.compare x z) eqn:Hc.
    + apply compare_Eq in Hc as ->. rewrite elem_of_cons. tauto.
    + rewrite !elem_of_cons. tauto.
    + rewrite !elem_of_cons, IH. tauto.
Qed.

Lemma insert_wf x s : wf s -> wf (insert x s).
Proof.
  induction s as [|z s IH]; simpl; intros Hwf.
  - repeat constructor.
  - destruct (String.compare x z) eqn:Hc; [done| |].
    + apply wf_cons. split; [done|]. constructor; [done|].
      apply wf_cons in Hwf as [_ Hz].
      eapply Forall_impl; [exact Hz|]. intros w Hw. by etrans.
    + apply wf_cons in Hwf as [Hs Hz]. apply wf_cons. split; [by apply IH|].
      apply Forall_forall. intros w Hw. apply elem_of_insert in Hw as [->|Hw].
      * by apply compare_Gt.
      * rewrite Forall_forall in Hz. by apply Hz.
Qed.

Lemma find_spec x s : wf s -> find x s = true <-> x ∈ s.
Proof.
  induction s as [|z s IH]; simpl; intros Hwf.
  - split; [done|]. by intros ?%elem_of_nil.
  - apply wf_cons in Hwf as [Hs Hz]. destruct (String.compare x z) eqn:Hc.
    + apply compare_Eq in Hc as ->. split; [|done]. intros _. by left.
    + split; [done|]. intros [->|Hin]%elem_of_cons.
      * by rewrite compare_refl in Hc.
      * rewrite Forall_forall in Hz. destruct (lt_asym x z Hc (Hz x Hin)).
    + rewrite IH by done. split; [by right|].
      intros [->|Hin]%elem_of_cons; [|done]. by rewrite compare_refl in Hc.
Qed.

(** The set built by inserting the elements of a vector one by one. *)
Lemma foldl_insert_wf {A} (f : A -> string) (l : list A) (s : t) :
  wf s -> wf (foldl (λ s a, insert (f a) s) s l).
Proof.
  revert s. induction l as [|a l IH]; simpl; intros s Hwf; [done|].
  by apply IH, insert_wf.
Qed.

Lemma elem_of_foldl_insert {A} (f : A -> string) (l : list A) (s : t) x :
  x ∈ foldl (λ s a, insert (f a) s) s l <-> x ∈ f <$> l ∨ x ∈ s.
Proof.
  revert s. induction l as [|a l IH]; simpl; intros s.
  - rewrite elem_of_nil. tauto.
  - rewrite IH, elem_of_insert, elem_of_cons. tauto.
Qed.

Lemma empty_wf : wf empty.
Proof. constructor. Qed.

(** The equations of [set_difference]. *)
Lemma set_difference_nil_l b : set_difference [] b = [].
Proof. by destruct b. Qed.

Lemma set_difference_nil_r a : set_difference a [] = a.
Proof. by destruct a. Qed.

Lemma set_difference_cons x a y b :
  set_difference (x :: a) (y :: b) =
    match String.compare x y with
    | Lt => x :: set_difference a (y :: b)
    | Eq => set_difference a b
    | Gt => set_difference (x :: a) b
    end.
Proof. done. Qed.

Lemma elem_of_set_difference a b z :
  wf a -> wf b -> z ∈ set_difference a b <-> z ∈ a ∧ z ∉ b.
Proof.
  revert b. induction a as [|x a IHa]; intros b Ha Hb.
  { rewrite set_difference_nil_l, elem_of_nil. tauto. }
  apply wf_cons in Ha as [Ha Hx]. rewrite Forall_forall in Hx.
  induction b as [|y b IHb].
  { rewrite set_difference_nil_r, elem_of_nil. tauto. }
  pose proof Hb as Hyb. apply wf_cons in Hyb as [Hb' Hy].
  rewrite Forall_forall in Hy.
  rewrite set_difference_cons. destruct (String.compare x y) eqn:Hc.
  - apply compare_Eq in Hc as <-. rewrite IHa by done.
    rewrite !elem_of_cons. split.
    + intros [Hza Hzb]. split; [by right|]. intros [->|?]; [|done].
      exact (lt_irrefl _ (Hx _ Hza)).
    + intros [[->|Hza] Hzb]; [tauto|]. tauto.
  - rewrite elem_of_cons, IHa by done. rewrite !elem_of_cons. split.
    + intros [->|[Hza Hzb]]; [|tauto]. split; [by left|].
      intros [->|Hin]; [exact (lt_irrefl _ Hc)|].
      exact (lt_asym _ _ Hc (Hy _ Hin)).
    + intros [[->|Hza] Hzb]; [by left|]. right. tauto.
  - apply compare_Gt in Hc. rewrite IHb by done. rewrite !elem_of_cons. split.
    + intros [Hza Hzb]. split; [done|]. intros [->|?]; [|done].
      destruct Hza as [->|Hza]; [exact (lt_irrefl _ Hc)|].
      exact (lt_asym _ _ Hc (Hx _ Hza)).
    + tauto.
Qed.

Lemma set_difference_wf a b : wf a -> wf b -> wf (set_difference a b).
Proof.
  revert b. induction a as [|x a IHa]; intros b Ha Hb.
  { by rewrite set_difference_nil_l. }
  induction b as [|y b IHb].
  { by rewrite set_difference_nil_r. }
  pose proof Ha as Hxa. apply wf_cons in Hxa as [Ha' Hx].
  pose proof Hb as Hyb. apply wf_cons in Hyb as [Hb' Hy].
  rewrite set_difference_cons. destruct (String.compare x y).
  - by apply IHa.
  - apply wf_cons. split; [by apply IHa|].
    rewrite Forall_forall in Hx. apply Forall_forall. intros z Hz.
    apply elem_of_set_difference in Hz as [Hz _]; auto.
  - by apply IHb.
Qed.

(** Two sets with the same keys have the same traversal. *)
Lemma wf_ext a b : wf a -> wf b -> (∀ z, z ∈ a <-> z ∈ b) -> a = b.
Proof.
  revert b. induction a as [|x a IH]; intros [|y b] Ha Hb Hab.
  - done.
  - assert (y ∈ @nil string) as []%elem_of_nil by (apply Hab; by left).
  - assert (x ∈ @nil string) as []%elem_of_nil by (apply Hab; by left).
  - apply wf_cons in Ha as [Ha Hx]. apply wf_cons in Hb as [Hb Hy].
    rewrite Forall_forall in Hx, Hy.
    assert (x = y) as ->.
    { assert (x ∈ y :: b) as [?|Hxb]%elem_of_cons by (apply Hab; by left); [done|].
      assert (y ∈ x :: a) as [?|Hya]%elem_of_cons by (apply Hab; by left); [done|].
      destruct (lt_asym _ _ (Hx _ Hya) (Hy _ Hxb)). }
    f_equal. apply IH; [done..|]. intros z. split; intros Hz.
    + assert (z ∈ y :: b) as [->|?]%elem_of_cons by (apply Hab; by right); [|done].
      destruct (lt_irrefl _ (Hx _ Hz)).
    + assert (z ∈ y :: a) as [->|?]%elem_of_cons by (apply Hab; by right); [|done].
      destruct (lt_irrefl _ (Hy _ Hz)).
Qed.

(** When [b] is included in [a], the difference has [size a - size b] keys. *)
Lemma set_difference_length a b :
  wf a -> wf b -> (∀ z, z ∈ b -> z ∈ a) ->
  length (set_difference a b) = length a - length b.
Proof.
  intros Ha Hb Hincl.
  assert (a ≡ₚ set_difference a b ++ b) as Hperm.
  { apply NoDup_Permutation.
    - by apply wf_NoDup.
    - apply NoDup_app. split_and!.
      + by apply wf_NoDup, set_difference_wf.
      + intros z Hz. apply elem_of_set_difference in Hz; tauto.
      + by apply wf_NoDup.
    - intros z. rewrite elem_of_app, elem_of_set_difference by done.
      specialize (Hincl z). destruct (decide (z ∈ b)); tauto. }
  apply Permutation_length in Hperm. rewrite length_app in Hperm. lia.
Qed.

(** A subset of [a] with as many keys as [a] has all the keys of [a]. *)
Lemma subset_same_size a b :
  wf a -> wf b -> (∀ z, z ∈ b -> z ∈ a) ->
  size b = size a <-> (∀ z, z ∈ a -> z ∈ b).
Proof.
  intros Ha Hb Hincl. unfold size. split.
  - intros Hlen z Hz.
    assert (b ⊆+ a) as Hsub by (apply NoDup_submseteq; [by apply wf_NoDup|done]).
    apply submseteq_length_Permutation in Hsub; [|lia].
    by rewrite Hsub.
  - intros Hincl'. f_equal. apply wf_ext; [done..|]. split; auto.
Qed.

End StdSetFacts.

(** ** [filter_by_name] *)

Module FilterFacts.
Import StdSet StdSetFacts.

(** The set of names built by the first loop. *)
Lemma names_set_wf (names_vec : list string) :
  wf (foldl (λ names name, insert name names) empty names_vec).
Proof. apply (foldl_insert_wf id), empty_wf. Qed.

Lemma names_set_find (names_vec : list string) x :
  find x (foldl (λ names name, insert name names) empty names_vec) = true
  <-> x ∈ names_vec.
Proof.
  rewrite find_spec by apply names_set_wf.
  rewrite (elem_of_foldl_insert id), list_fmap_id, elem_of_nil. tauto.
Qed.

(** The second loop, a [push_back] per kept element, is a filter. *)
Lemma push_back_loop {A} (keep : A -> bool) (l acc : list A) :
  foldl (λ result a, if keep a then result ++ [a] else result) acc l
  = acc ++ filter (λ a, keep a = true) l.
Proof.
  revert acc. induction l as [|a l IH]; intros acc; simpl.
  - by rewrite app_nil_r.
  - rewrite IH. destruct (keep a) eqn:Hk.
    + rewrite filter_cons_True by done. by rewrite <- app_assoc.
    + rewrite filter_cons_False; [done|]. by rewrite Hk.
Qed.

Lemma filter_by_name_filter {Info} `{Named Info}
    (infos : list Info) (names_vec : list string) :
  filter_by_name infos names_vec = filter (λ info, name_of info ∈ names_vec) infos.
Proof.
  unfold filter_by_name. rewrite push_back_loop. simpl.
  apply list_filter_iff. intros info. apply names_set_find.
Qed.

End FilterFacts.

(** ** The computation monad *)

Module MonadFacts.

Lemma bind_unfold {D A B} (m : M D A) (k : A -> M D B) (w : World D) :
  (m ≫= k) w =
    match m w with
    | (Returned a, w') => k a w'
    | (Thrown e, w') => (Thrown e, w')
    | (Undefined, w') => (Undefined, w')
    end.
Proof. done. Qed.

(** A loop whose body reads [array[i]] and updates the loop state with a
    pure function of the element: within the array it is a left fold over
    the elements read, and it leaves the world as it is. *)
Lemma for_loop_read {D St A} (array : list A) (g : St -> A -> St)
    (body : nat -> St -> M D St) (first iterations : nat) (s : St) (w : World D) :
  (∀ i s w, body i s w =
     match array !! i with
     | Some p => (Returned (g s p), w)
     | None => (Undefined, w)
     end) ->
  first + iterations ≤ length array ->
  for_loop first iterations body s w
  = (Returned (foldl g s (take iterations (drop first array))), w).
Proof.
  intros Hbody. revert first s.
  induction iterations as [|n IH]; intros first s Hlen; simpl.
  - reflexivity.
  - rewrite bind_unfold, Hbody.
    destruct (array !! first) as [p|] eqn:Hp.
    + rewrite IH by lia. f_equal. f_equal.
      by rewrite (drop_S array p first Hp).
    + apply lookup_ge_None in Hp. lia.
Qed.

(** Such a loop never throws and never touches the world, whatever the
    number of iterations. *)
Lemma for_loop_read_world {D St A} (array : list A) (g : St -> A -> St)
    (body : nat -> St -> M D St) (first iterations : nat) (s : St) (w : World D) :
  (∀ i s w, body i s w =
     match array !! i with
     | Some p => (Returned (g s p), w)
     | None => (Undefined, w)
     end) ->
  (∃ s', for_loop first iterations body s w = (Returned s', w))
  ∨ for_loop first iterations body s w = (Undefined, w).
Proof.
  intros Hbody. revert first s.
  induction iterations as [|n IH]; intros first s; simpl.
  - left. eexists. reflexivity.
  - rewrite bind_unfold, Hbody.
    destruct (array !! first) as [p|]; [apply IH|by right].
Qed.

Lemma push_back_fmap {A B} (f : A -> B) (l : list A) (acc : list B) :
  foldl (λ acc a, acc ++ [f a]) acc l = acc ++ (f <$> l).
Proof.
  revert acc. induction l as [|a l IH]; intros acc; simpl.
  - by rewrite app_nil_r.
  - by rewrite IH, <- app_assoc.
Qed.

Lemma array_read_unfold {D A} (array : list A) (i : nat) (w : World D) :
  array_read array i w =
    match array !! i with
    | Some p => (Returned p, w)
    | None => (Undefined, w)
    end.
Proof. unfold array_read. by destruct (array !! i). Qed.

(** The loop of the three queries: read [count] elements, [push_back] a
    conversion of each. *)
Lemma push_back_loop_run {D A B} (array : list A) (f : A -> B) (count : nat)
    (w : World D) :
  count ≤ length array ->
  for_loop 0 count (λ i acc, p ← array_read array i; mret (acc ++ [f p])) [] w
  = (Returned (f <$> take count array), w).
Proof.
  intros Hlen.
  rewrite (for_loop_read array (λ acc p, acc ++ [f p])); [|intros i s w'|done].
  - by rewrite push_back_fmap, drop_0.
  - rewrite bind_unfold, array_read_unfold. by destruct (array !! i).
Qed.

(** Whatever the count, such a loop returns a list or is undefined, and
    the world is as before. *)
Lemma push_back_loop_cases {D A B} (array : list A) (f : A -> B) (count : nat)
    (w : World D) :
  (∃ l, for_loop 0 count (λ i acc, p ← array_read array i; mret (acc ++ [f p])) [] w
        = (Returned l, w))
  ∨ for_loop 0 count (λ i acc, p ← array_read array i; mret (acc ++ [f p])) [] w
    = (Undefined, w).
Proof.
  apply (for_loop_read_world array (λ acc p, acc ++ [f p])). intros i s w'.
  rewrite bind_unfold, array_read_unfold. by destruct (array !! i).
Qed.

Lemma length_array_after_write {A} (capacity count : uint32_t) (written : list A) :
  (count ≤ capacity)%N -> N.to_nat count ≤ length written ->
  N.to_nat count ≤ length (array_after_write capacity written).
Proof. intros. unfold array_after_write. rewrite length_take. lia. Qed.

Lemma take_array_after_write {A} (capacity count : uint32_t) (written : list A) :
  (count ≤ capacity)%N ->
  take (N.to_nat count) (array_after_write capacity written)
  = take (N.to_nat count) written.
Proof.
  intros. unfold array_after_write. rewrite take_take. f_equal. lia.
Qed.

Lemma delete_array_live {D} (p : addr) (w : World D) :
  p ∈ live w ->
  delete_array p w
  = (Returned tt,
     {| driver_state := driver_state w; live := filter (λ q, q ≠ p) (live w);
        next_addr := next_addr w; trace := trace w |}).
Proof. intros Hp. unfold delete_array. by rewrite decide_True. Qed.

End MonadFacts.

(** Stepping through a computation: a call of the driver whose reply is
    known, an allocation, a release of a live block. *)
Ltac step_call H :=
  rewrite MonadFacts.bind_unfold; unfold call at 1;
  cbn [driver_state live next_addr trace]; rewrite H.
Ltac step_new :=
  rewrite MonadFacts.bind_unfold; unfold new_array at 1;
  cbn [driver_state live next_addr trace].
Ltac step_delete :=
  rewrite MonadFacts.bind_unfold, MonadFacts.delete_array_live
    by (cbn [live]; rewrite ?elem_of_cons; auto);
  cbn [driver_state live next_addr trace].
Ltac decide_success H :=
  rewrite H; rewrite (decide_False (P:=VK_SUCCESS ≠ VK_SUCCESS)) by (by intros []);
  cbv iota.

(** ** The capability queries *)

Section queries.
Context {D : Type} (drv : Driver D).

Lemma get_layer_infos_run (w : World D) count_reply d1 fill_reply d2 :
  vkEnumerateInstanceLayerProperties drv None (driver_state w) = (count_reply, d1) ->
  reply_result count_reply = VK_SUCCESS ->
  reply_count count_reply ≠ 0%N ->
  vkEnumerateInstanceLayerProperties drv (Some (reply_count count_reply)) d1
    = (fill_reply, d2) ->
  (reply_count fill_reply ≤ reply_count count_reply)%N ->
  N.to_nat (reply_count fill_reply) ≤ length (reply_written fill_reply) ->
  (get_layer_infos drv w).1
  = Returned (LayerInfo_of <$>
                take (N.to_nat (reply_count fill_reply)) (reply_written fill_reply)).
Proof.
  intros Hcount Hok Hnz Hfill Hle Hlen. unfold get_layer_infos.
  step_call Hcount. decide_success Hok. rewrite decide_False by done.
  step_new. step_call Hfill.
  rewrite MonadFacts.bind_unfold, MonadFacts.push_back_loop_run
    by by apply MonadFacts.length_array_after_write.
  step_delete. by rewrite MonadFacts.take_array_after_write.
Qed.

Lemma get_layer_infos_throws (w : World D) e :
  (get_layer_infos drv w).1 = Thrown e ->
  let reply := (vkEnumerateInstanceLayerProperties drv None (driver_state w)).1 in
  (reply_result reply ≠ VK_SUCCESS
   ∧ e = VulkanException (reply_result reply) "Error getting number of layers")
  ∨ (reply_result reply = VK_SUCCESS ∧ reply_count reply = 0%N
     ∧ e = runtime_error "Layer count non-positive").
Proof.
  unfold get_layer_infos. rewrite MonadFacts.bind_unfold. unfold call at 1.
  destruct (vkEnumerateInstanceLayerProperties drv None (driver_state w))
    as [count_reply d1]. cbn [fst driver_state live next_addr trace].
  destruct (decide (reply_result count_reply ≠ VK_SUCCESS)) as [Hne|Hok].
  { intros [= <-]. by left. }
  destruct (decide (reply_count count_reply = 0%N)) as [Hz|Hnz].
  { intros [= <-]. right. split_and!; [|done..].
    by destruct (decide (reply_result count_reply = VK_SUCCESS)). }
  step_new. rewrite MonadFacts.bind_unfold. unfold call at 1.
  destruct (vkEnumerateInstanceLayerProperties drv _ _) as [fill_reply d2].
  cbn [driver_state live next_addr trace].
  rewrite MonadFacts.bind_unfold.
  destruct (MonadFacts.push_back_loop_cases
              (array_after_write (reply_count count_reply) (reply_written fill_reply))
              LayerInfo_of (N.to_nat (reply_count fill_reply))
              {| driver_state := d2; live := next_addr w :: live w;
                 next_addr := S (next_addr w);
                 trace := (trace w ++ [Call_vkEnumerateInstanceLayerProperties None]) ++
                          [Call_vkEnumerateInstanceLayerProperties
                             (Some (reply_count count_reply))] |})
    as [[l ->]| ->]; [|done].
  step_delete. done.
Qed.

Lemma get_extension_infos_run (w : World D) count_reply d1 fill_reply d2 :
  vkEnumerateInstanceExtensionProperties drv None (driver_state w) = (count_reply, d1) ->
  reply_result count_reply = VK_SUCCESS ->
  reply_count count_reply ≠ 0%N ->
  vkEnumerateInstanceExtensionProperties drv (Some (reply_count count_reply)) d1
    = (fill_reply, d2) ->
  (reply_count fill_reply ≤ reply_count count_reply)%N ->
  N.to_nat (reply_count fill_reply) ≤ length (reply_written fill_reply) ->
  (get_extension_infos drv w).1
  = Returned (ExtensionInfo_of <$>
                take (N.to_nat (reply_count fill_reply)) (reply_written fill_reply)).
Proof.
  intros Hcount Hok Hnz Hfill Hle Hlen. unfold get_extension_infos.
  step_call Hcount. decide_success Hok. rewrite decide_False by done.
  step_new. step_call Hfill.
  rewrite MonadFacts.bind_unfold, MonadFacts.push_back_loop_run
    by by apply MonadFacts.length_array_after_write.
  step_delete. by rewrite MonadFacts.take_array_after_write.
Qed.

Lemma get_extension_infos_throws (w : World D) e :
  (get_extension_infos drv w).1 = Thrown e ->
  let reply := (vkEnumerateInstanceExtensionProperties drv None (driver_state w)).1 in
  (reply_result reply ≠ VK_SUCCESS
   ∧ e = VulkanException (reply_result reply) "Error getting number of extensions")
  ∨ (reply_result reply = VK_SUCCESS ∧ reply_count reply = 0%N
     ∧ e = runtime_error "Extension count zero").
Proof.
  unfold get_extension_infos. rewrite MonadFacts.bind_unfold. unfold call at 1.
  destruct (vkEnumerateInstanceExtensionProperties drv None (driver_state w))
    as [count_reply d1]. cbn [fst driver_state live next_addr trace].
  destruct (decide (reply_result count_reply ≠ VK_SUCCESS)) as [Hne|Hok].
  { intros [= <-]. by left. }
  destruct (decide (reply_count count_reply = 0%N)) as [Hz|Hnz].
  { intros [= <-]. right. split_and!; [|done..].
    by destruct (decide (reply_result count_reply = VK_SUCCESS)). }
  step_new. rewrite MonadFacts.bind_unfold. unfold call at 1.
  destruct (vkEnumerateInstanceExtensionProperties drv _ _) as [fill_reply d2].
  cbn [driver_state live next_addr trace].
  rewrite MonadFacts.bind_unfold.
  destruct (MonadFacts.push_back_loop_cases
              (array_after_write (reply_count count_reply) (reply_written fill_reply))
              ExtensionInfo_of (N.to_nat (reply_count fill_reply))
              {| driver_state := d2; live := next_addr w :: live w;
                 next_addr := S (next_addr w);
                 trace := (trace w ++ [Call_vkEnumerateInstanceExtensionProperties None]) ++
                          [Call_vkEnumerateInstanceExtensionProperties
                             (Some (reply_count count_reply))] |})
    as [[l ->]| ->]; [|done].
  step_delete. done.
Qed.

(** The window query has no test of the count: when both calls succeed it
    returns the names that were written, none if the count is zero. *)
Lemma get_extension_names_run (window : SDL_Window) (w : World D)
    count_reply d1 fill_reply d2 :
  SDL_Vulkan_GetInstanceExtensions drv window None (driver_state w)
    = (count_reply, d1) ->
  reply_result count_reply = true ->
  SDL_Vulkan_GetInstanceExtensions drv window (Some (reply_count count_reply)) d1
    = (fill_reply, d2) ->
  reply_result fill_reply = true ->
  (reply_count fill_reply ≤ reply_count count_reply)%N ->
  N.to_nat (reply_count fill_reply) ≤ length (reply_written fill_reply) ->
  (get_extension_names drv window w).1
  = Returned (take (N.to_nat (reply_count fill_reply)) (reply_written fill_reply)).
Proof.
  unfold SDL_bool in *.
  intros Hcount Hok Hfill Hok' Hle Hlen. unfold get_extension_names.
  step_call Hcount. rewrite Hok. cbn [negb].
  step_new. step_call Hfill. rewrite Hok'. cbn [negb].
  rewrite MonadFacts.bind_unfold, (MonadFacts.push_back_loop_run _ id)
    by by apply MonadFacts.length_array_after_write.
  step_delete. by rewrite list_fmap_id, MonadFacts.take_array_after_write.
Qed.

(** [select_gpu] when both calls succeed and the array has a first element. *)
Lemma select_gpu_run (this : Instance.t) (w : World D)
    count_reply d1 fill_reply d2 selected others :
  vkEnumeratePhysicalDevices drv (Instance.instance this) None (driver_state w)
    = (count_reply, d1) ->
  reply_result count_reply = VK_SUCCESS ->
  reply_count count_reply ≠ 0%N ->
  vkEnumeratePhysicalDevices drv (Instance.instance this)
    (Some (reply_count count_reply)) d1 = (fill_reply, d2) ->
  reply_result fill_reply = VK_SUCCESS ->
  reply_written fill_reply = selected :: others ->
  (select_gpu drv this w).1 = Returned (PhysicalDevice.mk selected 0).
Proof.
  intros Hcount Hok Hnz Hfill Hok' Hwritten. unfold select_gpu.
  step_call Hcount. decide_success Hok.
  step_new. step_call Hfill. decide_success Hok'.
  rewrite MonadFacts.bind_unfold, MonadFacts.array_read_unfold.
  unfold array_after_write. rewrite Hwritten.
  destruct (N.to_nat (reply_count count_reply)) as [|n] eqn:Hn; [lia|].
  cbn [take]. change (Z.to_nat 0) with 0%nat.
  change ((selected :: take n others) !! 0%nat) with (Some selected). cbv iota.
  step_delete. done.
Qed.

(** [is_surface_supported] returns what the driver stored, or [false] if it
    stored nothing; the result code plays no part. *)
Lemma is_surface_supported_run (this : PhysicalDevice.t) (surface : Surface.t)
    (w : World D) result stored d1 :
  vkGetPhysicalDeviceSurfaceSupportKHR drv (PhysicalDevice.physical_device this)
    (PhysicalDevice.queue_family_index this) (Surface.surface surface) (driver_state w)
    = ((result, stored), d1) ->
  is_surface_supported drv this surface w
  = (Returned (negb (default 0%N stored =? 0)%N),
     {| driver_state := d1; live := live w; next_addr := next_addr w;
        trace := trace w ++
          [Call_vkGetPhysicalDeviceSurfaceSupportKHR
             (PhysicalDevice.physical_device this)
             (PhysicalDevice.queue_family_index this) (Surface.surface surface)] |}).
Proof.
  intros Hcall. unfold is_surface_supported. step_call Hcall. done.
Qed.

End queries.

(** ** [NamesArray] and the heap *)

Module HeapFacts.
Import MonadFacts.

Lemma filter_ne_id (p : addr) (l : list addr) :
  p ∉ l -> filter (λ q, q ≠ p) l = l.
Proof.
  induction l as [|q l IH]; [done|]. rewrite not_elem_of_cons. intros [Hne Hl].
  rewrite filter_cons_True by done. by rewrite IH.
Qed.

Lemma filter_ne_head (p : addr) (l : list addr) :
  p ∉ l -> filter (λ q, q ≠ p) (p :: l) = l.
Proof.
  intros Hl. rewrite filter_cons_False by (by intros []). by apply filter_ne_id.
Qed.

Lemma not_elem_of_lt (p : addr) (l : list addr) :
  Forall (λ q, q < p) l -> p ∉ l.
Proof. rewrite Forall_forall. intros Hl Hp. specialize (Hl p Hp). lia. Qed.

Section names_array.
Context {D : Type} {Info : Type} `{Named Info}.

Lemma NamesArray_fill_run (infos : list Info) (done : list c_string_slot)
    (c : addr) (w : World D) :
  (N.of_nat (length done + length infos) < 2 ^ 32)%N ->
  NamesArray_fill (D:=D) infos
    {| count := N.of_nat (length done); c_strings := c;
       c_strings_elements := done ++ replicate (length infos) None |} w
  = (Returned
       {| count := N.of_nat (length done + length infos); c_strings := c;
          c_strings_elements :=
            done ++ imap (λ i info, Some (next_addr w + i, name_of info)) infos |},
     {| driver_state := driver_state w;
        live := reverse (seq (next_addr w) (length infos)) ++ live w;
        next_addr := next_addr w + length infos;
        trace := trace w |}).
Proof.
  revert done w. induction infos as [|info infos IH]; intros done w Hlen.
  - simpl. rewrite !Nat.add_0_r. by destruct w.
  - cbn [NamesArray_fill]. step_new. cbn [count c_strings c_strings_elements].
    rewrite Nat2N.id. cbn [length replicate].
    rewrite (insert_app_r_alt done) by done. rewrite Nat.sub_diag. cbn [insert list_insert].
    replace (uint32_succ (N.of_nat (length done)))
      with (N.of_nat (length (done ++ [Some (next_addr w, name_of info)]))).
    2:{ rewrite length_app. cbn [length]. unfold uint32_succ.
        rewrite N.mod_small; [lia|]. cbn [length] in Hlen. lia. }
    replace (done ++ Some (next_addr w, name_of info) :: replicate (length infos) None)
      with ((done ++ [Some (next_addr w, name_of info)]) ++ replicate (length infos) None)
      by (by rewrite <- app_assoc).
    rewrite IH by (rewrite length_app; cbn [length] in *; lia).
    cbn [driver_state live next_addr trace length imap].
    rewrite length_app, <- app_assoc. cbn [length app]. rewrite Nat.add_0_r.
    rewrite (Nat.add_1_r (length done)), <- Nat.add_succ_comm.
    rewrite <- (Nat.add_succ_comm (next_addr w)).
    rewrite (imap_ext (λ i info, Some (S (next_addr w) + i, name_of info))
                      ((λ i info, Some (next_addr w + i, name_of info)) ∘ S) infos)
      by (intros; cbn; do 2 f_equal; lia).
    cbn [seq]. by rewrite reverse_cons, <- app_assoc.
Qed.

Lemma NamesArray_ctor_run (infos : list Info) (w : World D) :
  (N.of_nat (length infos) < 2 ^ 32)%N ->
  NamesArray_ctor (D:=D) infos w
  = (Returned (NamesArray_built (next_addr w) infos),
     {| driver_state := driver_state w;
        live := reverse (seq (next_addr w) (S (length infos))) ++ live w;
        next_addr := next_addr w + S (length infos);
        trace := trace w |}).
Proof.
  intros Hlen. unfold NamesArray_ctor. step_new.
  rewrite (NamesArray_fill_run infos [] (next_addr w)) by done.
  cbn [driver_state live next_addr trace length app]. unfold NamesArray_built.
  cbn [seq]. rewrite reverse_cons, <- app_assoc, Nat.add_succ_r. done.
Qed.

(** The loop of the destructor releases the blocks of the names, last
    allocated first. *)
Lemma NamesArray_release_run (infos : list Info) (c k : addr) (rest : list addr)
    (w : World D) :
  k ≤ length infos ->
  live w = reverse (seq (S c) k) ++ rest ->
  Forall (λ p, p ≤ c) rest ->
  NamesArray_release (D:=D)
    (imap (λ i info, Some (S c + i, name_of info)) infos) k w
  = (Returned tt,
     {| driver_state := driver_state w; live := rest;
        next_addr := next_addr w; trace := trace w |}).
Proof.
  revert w. induction k as [|k IH]; intros w Hk Hlive Hrest.
  - cbn in *. rewrite <- Hlive. by destruct w.
  - cbn [NamesArray_release]. rewrite bind_unfold, array_read_unfold.
    destruct (lookup_lt_is_Some_2 infos k) as [info Hinfo]; [lia|].
    rewrite list_lookup_imap, Hinfo. cbn [fmap option_fmap option_map].
    rewrite seq_S, reverse_snoc in Hlive. cbn [app] in Hlive.
    rewrite bind_unfold, delete_array_live by (rewrite Hlive; by left).
    rewrite Hlive, filter_ne_head.
    2:{ apply not_elem_of_lt, Forall_app. split.
        - apply Forall_reverse, Forall_seq. intros; lia.
        - eapply Forall_impl; [done|]. intros; simpl in *; lia. }
    rewrite IH; [done|lia|done|done].
Qed.

Lemma NamesArray_dtor_run (infos : list Info) (c : addr) (rest : list addr)
    (w : World D) :
  live w = reverse (seq c (S (length infos))) ++ rest ->
  Forall (λ p, p < c) rest ->
  NamesArray_dtor (D:=D) (NamesArray_built c infos) w
  = (Returned tt,
     {| driver_state := driver_state w; live := rest;
        next_addr := next_addr w; trace := trace w |}).
Proof.
  intros Hlive Hrest. unfold NamesArray_dtor, NamesArray_built.
  cbn [count c_strings c_strings_elements]. rewrite Nat2N.id.
  cbn [seq] in Hlive. rewrite reverse_cons, <- app_assoc in Hlive.
  rewrite bind_unfold, (NamesArray_release_run infos c _ ([c] ++ rest)); [|done..|].
  - rewrite delete_array_live by (by left). cbn [driver_state live next_addr trace app].
    by rewrite filter_ne_head by by apply not_elem_of_lt.
  - constructor; [done|]. eapply Forall_impl; [done|]. intros; simpl in *; lia.
Qed.

End names_array.
End HeapFacts.

(** ** Scoped objects *)

Module ScopedFacts.

Lemma scoped_run {D R A} (ctor : M D R) (dtor : R -> M D unit) (body : R -> M D A)
    (w w1 w2 w3 : World D) (r : R) (o : outcome A) :
  ctor w = (Returned r, w1) ->
  body r w1 = (o, w2) ->
  dtor r w2 = (Returned tt, w3) ->
  o ≠ Undefined ->
  scoped ctor dtor body w = (o, w3).
Proof.
  intros Hctor Hbody Hdtor Ho. unfold scoped. rewrite Hctor, Hbody, Hdtor.
  by destruct o.
Qed.

End ScopedFacts.

(** Every block of a list described by ranges and by the live blocks of a
    well-formed world is older than a given block. *)
Ltac solve_older Hwf :=
  cbn [live next_addr];
  repeat first
    [ apply Forall_nil_2
    | apply Forall_app; split
    | rewrite Forall_reverse
    | apply Forall_cons; split; [cbn; lia|]
    | apply Forall_seq; intros; cbn; lia
    | eapply Forall_impl; [exact Hwf|]; intros; cbn in *; lia ].


(** ** Instance creation *)

Section instance.
Context {D : Type} (drv : Driver D).
Context {P : Type} `{ICreateInstanceParameters P}.

(** Instance creation: whatever the driver answers, the two name arrays
    are released when the constructor is left. *)
Lemma Instance_ctor_run (parameters : P) (w : World D) result instance d1 :
  heap_wf w ->
  (N.of_nat (length (get_requested_layers parameters)) < 2 ^ 32)%N ->
  (N.of_nat (length (get_requested_extensions parameters)) < 2 ^ 32)%N ->
  vkCreateInstance drv (instance_create_info parameters (next_addr w)) (driver_state w)
    = ((result, instance), d1) ->
  Instance_ctor drv parameters w
  = (if decide (result ≠ VK_SUCCESS)
     then Thrown (VulkanException result "Error while creating vulkan instance")
     else Returned (Instance.mk instance),
     {| driver_state := d1; live := live w;
        next_addr := next_addr w + S (length (get_requested_layers parameters))
                     + S (length (get_requested_extensions parameters));
        trace := trace w ++
                 [Call_vkCreateInstance (instance_create_info parameters (next_addr w))] |}).
Proof.
  intros Hwf Hlayers Hextensions Hcreate. unfold Instance_ctor.
  eapply ScopedFacts.scoped_run.
  - by apply HeapFacts.NamesArray_ctor_run.
  - eapply ScopedFacts.scoped_run.
    + by apply HeapFacts.NamesArray_ctor_run.
    + cbn [driver_state live next_addr trace].
      rewrite MonadFacts.bind_unfold. unfold call at 1.
      cbn [driver_state live next_addr trace].
      fold (instance_create_info parameters (next_addr w)).
      rewrite Hcreate. by destruct (decide (result ≠ VK_SUCCESS)).
    + apply HeapFacts.NamesArray_dtor_run; [done|]. solve_older Hwf.
    + by destruct (decide (result ≠ VK_SUCCESS)).
  - cbn [driver_state live next_addr trace].
    rewrite (HeapFacts.NamesArray_dtor_run _ _ (live w)); [done|done|].
    solve_older Hwf.
  - by destruct (decide (result ≠ VK_SUCCESS)).
Qed.

End instance.

(** ** The gate of [create_logical_device] *)

Module GateFacts.
Import StdSet StdSetFacts.

Lemma requested_name_set_wf requested : wf (requested_name_set requested).
Proof. apply foldl_insert_wf, empty_wf. Qed.

Lemma elem_of_requested_name_set requested x :
  x ∈ requested_name_set requested <-> x ∈ ExtensionInfo.name <$> requested.
Proof.
  unfold requested_name_set. rewrite elem_of_foldl_insert, elem_of_nil. tauto.
Qed.

Lemma found_loop_wf requested supported found :
  wf found ->
  wf (foldl (λ found p,
               if find (extensionName p) requested
               then insert (extensionName p) found else found)
            found supported).
Proof.
  revert found. induction supported as [|p supported IH]; intros found Hwf; [done|].
  cbn [foldl]. apply IH. destruct (find _ _); [by apply insert_wf|done].
Qed.

Lemma elem_of_found_loop requested supported found x :
  wf requested ->
  x ∈ foldl (λ found p,
               if find (extensionName p) requested
               then insert (extensionName p) found else found)
            found supported
  <-> (x ∈ requested ∧ x ∈ extensionName <$> supported) ∨ x ∈ found.
Proof.
  intros Hwf. revert found.
  induction supported as [|p supported IH]; intros found; cbn [foldl fmap list_fmap].
  - rewrite elem_of_nil. tauto.
  - rewrite IH, elem_of_cons. destruct (find (extensionName p) requested) eqn:Hfind.
    + apply find_spec in Hfind; [|done]. rewrite elem_of_insert.
      split; [|tauto]. intros [?|[->|?]]; tauto.
    + assert (extensionName p ∉ requested) as Hnotin.
      { intros Hin%find_spec; [|done]. by rewrite Hfind in Hin. }
      split; [tauto|]. intros [[? [->|?]]|?]; tauto.
Qed.

Lemma found_name_set_wf requested supported :
  wf (found_name_set requested supported).
Proof. apply found_loop_wf, empty_wf. Qed.

Lemma elem_of_found_name_set requested supported x :
  wf requested ->
  x ∈ found_name_set requested supported
  <-> x ∈ requested ∧ x ∈ extensionName <$> supported.
Proof.
  intros Hwf. unfold found_name_set. rewrite elem_of_found_loop by done.
  rewrite elem_of_nil. tauto.
Qed.

(** The test of the sizes is the test of inclusion. *)
Lemma sizes_differ_iff (requested : list ExtensionInfo.t)
    (supported : list VkExtensionProperties) :
  size (found_name_set (requested_name_set requested) supported)
    ≠ size (requested_name_set requested)
  <-> ¬ (ExtensionInfo.name <$> requested) ⊆ (extensionName <$> supported).
Proof.
  pose proof (requested_name_set_wf requested) as Hwf.
  rewrite (subset_same_size _ _ Hwf (found_name_set_wf _ _)).
  2:{ intros z Hz. by apply elem_of_found_name_set in Hz as [? _]. }
  apply not_iff_compat. split.
  - intros Hall x Hx. apply elem_of_requested_name_set in Hx.
    by apply Hall, elem_of_found_name_set in Hx as [_ ?].
  - intros Hsub x Hx. apply elem_of_found_name_set; [done|]. split; [done|].
    by apply Hsub, elem_of_requested_name_set.
Qed.

(** The names written to [not_found_names]: the requested names that are
    not supported, in increasing order, filling the vector exactly. *)
Lemma not_found_names_spec (requested : list ExtensionInfo.t)
    (supported : list VkExtensionProperties) :
  let requested_set := requested_name_set requested in
  let found := found_name_set requested_set supported in
  let missing := set_difference requested_set found in
  copy_into missing (replicate (size requested_set - size found) "") = Some missing
  ∧ wf missing
  ∧ ∀ x, x ∈ missing <->
         x ∈ ExtensionInfo.name <$> requested ∧ x ∉ extensionName <$> supported.
Proof.
  intros requested_set found missing.
  pose proof (requested_name_set_wf requested) as Hwf.
  pose proof (found_name_set_wf requested_set supported) as Hwf'.
  split_and!.
  - unfold copy_into, missing.
    rewrite set_difference_length; [|done..|].
    2:{ intros z Hz. by apply elem_of_found_name_set in Hz as [? _]. }
    unfold size. rewrite length_replicate, decide_True by done.
    rewrite drop_replicate, Nat.sub_diag. apply f_equal, app_nil_r.
  - by apply set_difference_wf.
  - intros x. unfold missing. rewrite elem_of_set_difference by done.
    unfold found. rewrite elem_of_found_name_set by done.
    unfold requested_set. rewrite elem_of_requested_name_set. tauto.
Qed.

Lemma append_assoc (a b c : string) : (a +:+ b) +:+ c = a +:+ (b +:+ c).
Proof.
  induction a as [|ch a IH]; [done|].
  change (String ch ((a +:+ b) +:+ c) = String ch (a +:+ (b +:+ c))). by f_equal.
Qed.

Lemma append_empty_r (a : string) : a +:+ "" = a.
Proof.
  induction a as [|ch a IH]; [done|].
  change (String ch (a +:+ "") = String ch a). by f_equal.
Qed.

Lemma not_found_names_str_loop (names : list string) (str : string) :
  foldl (λ str name, str +:+ (" " +:+ name)) str names
  = str +:+ not_found_names_str names.
Proof.
  unfold not_found_names_str. revert str.
  induction names as [|name names IH]; intros str; cbn [foldl].
  - by rewrite append_empty_r.
  - rewrite IH, (IH ("" +:+ _)). by rewrite append_assoc.
Qed.

Lemma not_found_names_str_cons (name : string) (names : list string) :
  not_found_names_str (name :: names) = (" " +:+ name) +:+ not_found_names_str names.
Proof.
  unfold not_found_names_str at 1. cbn [foldl]. apply not_found_names_str_loop.
Qed.

(** The appended text is a space followed by the names joined by spaces. *)
Lemma not_found_names_str_concat (name : string) (names : list string) :
  not_found_names_str (name :: names) = " " +:+ String.concat " " (name :: names).
Proof.
  revert name. induction names as [|name' names IH]; intros name;
    rewrite not_found_names_str_cons.
  - apply append_empty_r.
  - rewrite IH, append_assoc. done.
Qed.

End GateFacts.

(** ** Device creation *)

Section device.
Context {D : Type} (drv : Driver D).
Context {P : Type} `{IRequestLayerAndExtensions P}.
Context (this : PhysicalDevice.t) (parameters : P) (w : World D).
Context (count_reply fill_reply : EnumReply VkResult VkExtensionProperties) (d1 d2 : D).

Let physical_device := PhysicalDevice.physical_device this.
Let supported :=
  take (N.to_nat (reply_count fill_reply)) (reply_written fill_reply).
Let requested := get_requested_extensions parameters.

(** The device reports its extensions: both calls succeed, the count is not
    zero, and the elements read were written. *)
Hypothesis Hcount :
  vkEnumerateDeviceExtensionProperties drv physical_device None (driver_state w)
  = (count_reply, d1).
Hypothesis Hcount_ok : reply_result count_reply = VK_SUCCESS.
Hypothesis Hcount_nz : reply_count count_reply ≠ 0%N.
Hypothesis Hfill :
  vkEnumerateDeviceExtensionProperties drv physical_device
    (Some (reply_count count_reply)) d1
  = (fill_reply, d2).
Hypothesis Hfill_ok : reply_result fill_reply = VK_SUCCESS.
Hypothesis Hfill_le : (reply_count fill_reply ≤ reply_count count_reply)%N.
Hypothesis Hfill_written :
  N.to_nat (reply_count fill_reply) ≤ length (reply_written fill_reply).

(** The world after the two enumeration calls. *)
Let enumerated (d : D) (live' : list addr) (next' : addr) (calls : list DriverCall)
  : World D :=
  {| driver_state := d; live := live'; next_addr := next';
     trace := trace w ++
       [Call_vkEnumerateDeviceExtensionProperties physical_device None;
        Call_vkEnumerateDeviceExtensionProperties physical_device
          (Some (reply_count count_reply))] ++ calls |}.

Lemma create_logical_device_prefix :
  create_logical_device drv this parameters w
  = ( let requested_extension_name_set := requested_name_set requested in
      let found_extension_names :=
        found_name_set requested_extension_name_set supported in
      if decide (StdSet.size found_extension_names
                 ≠ StdSet.size requested_extension_name_set) then
        let not_found_names :=
          replicate (StdSet.size requested_extension_name_set
                     - StdSet.size found_extension_names) "" in
        match copy_into
                (StdSet.set_difference requested_extension_name_set found_extension_names)
                not_found_names with
        | None => undefined
        | Some not_found_names =>
            throw (runtime_error
                     ("Not all extensions found:" +:+ not_found_names_str not_found_names))
        end
      else
        scoped (NamesArray_ctor (get_requested_layers parameters)) (NamesArray_dtor (D:=D))
          (λ requested_layer_names,
        scoped (NamesArray_ctor requested) (NamesArray_dtor (D:=D))
          (λ requested_extension_names,
        let queue_create_info :=
          {| qci_sType := VK_STRUCTURE_TYPE_DEVICE_QUEUE_CREATE_INFO;
             queueFamilyIndex := PhysicalDevice.queue_family_index this;
             queueCount := 1%N;
             pQueuePriorities := [1%Q];
             qci_flags := 0%N |} in
        let create_info :=
          {| dci_sType := VK_STRUCTURE_TYPE_DEVICE_CREATE_INFO;
             queueCreateInfoCount := 1%N;
             pQueueCreateInfos := [queue_create_info];
             dci_enabledLayerCount := count requested_layer_names;
             dci_ppEnabledLayerNames := c_strings_elements requested_layer_names;
             dci_enabledExtensionCount := count requested_extension_names;
             dci_ppEnabledExtensionNames := c_strings_elements requested_extension_names;
             dci_flags := 0%N |} in
        '(result, device) ← call (Call_vkCreateDevice physical_device create_info)
                                  (vkCreateDevice drv physical_device create_info);
        if decide (result ≠ VK_SUCCESS) then
          throw (VulkanException result "Error while creating logical devive")
        else
          _ ← delete_array (next_addr w);
          mret (LogicalDevice.mk device (PhysicalDevice.queue_family_index this))))
    ) (enumerated d2 (next_addr w :: live w) (S (next_addr w)) []).
Proof.
  unfold create_logical_device. fold physical_device.
  step_call Hcount. decide_success Hcount_ok. rewrite decide_False by done.
  step_new. step_call Hfill. decide_success Hfill_ok.
  rewrite MonadFacts.bind_unfold.
  rewrite (MonadFacts.for_loop_read
             (array_after_write (reply_count count_reply) (reply_written fill_reply))
             (λ found p,
                if StdSet.find (extensionName p)
                     (requested_name_set (get_requested_extensions parameters))
                then StdSet.insert (extensionName p) found else found)).
  - rewrite drop_0, MonadFacts.take_array_after_write by done.
    unfold enumerated. rewrite <- (app_assoc (trace w)). reflexivity.
  - intros i s w'. rewrite MonadFacts.bind_unfold, MonadFacts.array_read_unfold.
    destruct (_ !! i); [|done].
    by destruct (StdSet.find _ _).
  - by apply MonadFacts.length_array_after_write.
Qed.

(** The names asked for and the names the device reports. *)
Let requested_names := ExtensionInfo.name <$> requested.
Let supported_names := extensionName <$> supported.

Lemma create_logical_device_unsatisfied :
  ¬ requested_names ⊆ supported_names ->
  create_logical_device drv this parameters w
  = (Thrown (runtime_error
       ("Not all extensions found:" +:+
        not_found_names_str
          (StdSet.set_difference (requested_name_set requested)
             (found_name_set (requested_name_set requested) supported)))),
     enumerated d2 (next_addr w :: live w) (S (next_addr w)) []).
Proof.
  intros Hmissing. rewrite create_logical_device_prefix. cbv zeta.
  rewrite decide_True by by apply GateFacts.sizes_differ_iff.
  by destruct (GateFacts.not_found_names_spec requested supported) as [-> _].
Qed.

Lemma create_logical_device_satisfied result device d3 :
  requested_names ⊆ supported_names ->
  heap_wf w ->
  (N.of_nat (length (get_requested_layers parameters)) < 2 ^ 32)%N ->
  (N.of_nat (length requested) < 2 ^ 32)%N ->
  vkCreateDevice drv physical_device
    (device_create_info this parameters (S (next_addr w))) d2
  = ((result, device), d3) ->
  let next' := S (next_addr w)
               + S (length (get_requested_layers parameters))
               + S (length requested) in
  let calls :=
    [Call_vkCreateDevice physical_device
       (device_create_info this parameters (S (next_addr w)))] in
  create_logical_device drv this parameters w
  = if decide (result ≠ VK_SUCCESS)
    then (Thrown (VulkanException result "Error while creating logical devive"),
          enumerated d3 (next_addr w :: live w) next' calls)
    else (Returned (LogicalDevice.mk device (PhysicalDevice.queue_family_index this)),
          enumerated d3 (live w) next' calls).
Proof.
  intros Hsatisfied Hwf Hlayers Hextensions Hcreate next' calls.
  rewrite create_logical_device_prefix. cbv zeta.
  rewrite decide_False by (intros Hsizes; by apply GateFacts.sizes_differ_iff in Hsizes).
  unfold enumerated.
  assert (next_addr w ∉ live w) as Hfresh by by apply HeapFacts.not_elem_of_lt.
  destruct (decide (result ≠ VK_SUCCESS)) as [Hfailed|Hcreated].
  - eapply ScopedFacts.scoped_run.
    + by apply HeapFacts.NamesArray_ctor_run.
    + eapply ScopedFacts.scoped_run.
      * by apply HeapFacts.NamesArray_ctor_run.
      * cbn [driver_state live next_addr trace].
        rewrite MonadFacts.bind_unfold. unfold call at 1.
        cbn [driver_state live next_addr trace].
        lazymatch goal with
        | |- context [vkCreateDevice drv ?pd ?info] =>
            change info
              with (device_create_info this parameters (S (next_addr w)))
        end.
        rewrite Hcreate. by rewrite decide_True by done.
      * apply HeapFacts.NamesArray_dtor_run; [done|]. solve_older Hwf.
      * done.
    + cbn [driver_state live next_addr trace].
      rewrite (HeapFacts.NamesArray_dtor_run _ _ (next_addr w :: live w));
        [|done|solve_older Hwf].
      cbn [driver_state live next_addr trace].
      by rewrite <- (app_assoc (trace w)).
    + done.
  - eapply ScopedFacts.scoped_run.
    + by apply HeapFacts.NamesArray_ctor_run.
    + eapply ScopedFacts.scoped_run.
      * by apply HeapFacts.NamesArray_ctor_run.
      * cbn [driver_state live next_addr trace].
        rewrite MonadFacts.bind_unfold. unfold call at 1.
        cbn [driver_state live next_addr trace].
        lazymatch goal with
        | |- context [vkCreateDevice drv ?pd ?info] =>
            change info
              with (device_create_info this parameters (S (next_addr w)))
        end.
        rewrite Hcreate. rewrite decide_False by done.
        rewrite MonadFacts.bind_unfold, MonadFacts.delete_array_live
          by (cbn [live]; rewrite !elem_of_app, elem_of_cons; auto).
        cbn [driver_state live next_addr trace].
        rewrite !filter_app, HeapFacts.filter_ne_head by done.
        rewrite !HeapFacts.filter_ne_id
          by (rewrite elem_of_reverse, elem_of_seq; lia).
        reflexivity.
      * apply HeapFacts.NamesArray_dtor_run; [done|]. solve_older Hwf.
      * done.
    + cbn [driver_state live next_addr trace].
      rewrite (HeapFacts.NamesArray_dtor_run _ _ (live w));
        [|done|solve_older Hwf].
      cbn [driver_state live next_addr trace].
      by rewrite <- (app_assoc (trace w)).
    + done.
Qed.

End device.

(** * The claims *)

(** ** Filtering by name *)

(** C2: [filter_by_name infos names_vec] is exactly the elements of [infos]
    whose name is a member of [names_vec], in the order they have in
    [infos]; it is empty when [names_vec] is empty and when no element of
    [infos] has its name in [names_vec].  The function is total and pure:
    it has no throwing path. *)
Theorem filter_by_name_exact {Info} `{Named Info}
    (infos : list Info) (names_vec : list string) :
  filter_by_name infos names_vec = filter (λ info, name_of info ∈ names_vec) infos
  ∧ sublist (filter_by_name infos names_vec) infos
  ∧ filter_by_name infos [] = []
  ∧ (Forall (λ info, name_of info ∉ names_vec) infos ->
     filter_by_name infos names_vec = []).
Proof.
  split_and!.
  - apply FilterFacts.filter_by_name_filter.
  - rewrite FilterFacts.filter_by_name_filter. apply sublist_filter.
  - rewrite FilterFacts.filter_by_name_filter.
    induction infos as [|info infos IH]; [done|].
    rewrite filter_cons_False; [done|]. apply not_elem_of_nil.
  - intros Hdisjoint. rewrite FilterFacts.filter_by_name_filter.
    induction Hdisjoint as [|info infos Hinfo _ IH]; [done|].
    by rewrite filter_cons_False.
Qed.

Lemma filter_by_name_exact_witness :
  filter_by_name
    [ExtensionInfo.mk "VK_KHR_surface" 25; ExtensionInfo.mk "VK_KHR_swapchain" 70]
    ["VK_KHR_win32_surface"] = [].
Proof.
  apply filter_by_name_exact.
  repeat constructor; apply (bool_decide_unpack _); vm_compute; exact I.
Defined.

(** C8: an element of a query result whose name is in the list passed to
    [filter_by_name] is an element of the filtered output, as the same
    record: name, description, spec version and implementation version of
    a [LayerInfo], name and spec version of an [ExtensionInfo]. *)
Theorem filter_by_name_round_trip :
  (∀ (infos : list LayerInfo.t) (names_vec : list string) (info : LayerInfo.t),
     info ∈ infos -> LayerInfo.name info ∈ names_vec ->
     info ∈ filter_by_name infos names_vec)
  ∧ (∀ (infos : list ExtensionInfo.t) (names_vec : list string) (info : ExtensionInfo.t),
     info ∈ infos -> ExtensionInfo.name info ∈ names_vec ->
     info ∈ filter_by_name infos names_vec).
Proof.
  split; intros infos names_vec info Hin Hname;
    rewrite FilterFacts.filter_by_name_filter; by apply list_elem_of_filter.
Qed.

Lemma filter_by_name_round_trip_witness :
  LayerInfo.mk "VK_LAYER_KHRONOS_validation" "Khronos Validation Layer" 4202627 1
  ∈ filter_by_name
      [LayerInfo.mk "VK_LAYER_MESA_overlay" "Mesa Overlay layer" 4202496 1;
       LayerInfo.mk "VK_LAYER_KHRONOS_validation" "Khronos Validation Layer" 4202627 1]
      ["VK_LAYER_KHRONOS_validation"].
Proof.
  apply (proj1 filter_by_name_round_trip);
    apply (bool_decide_unpack _); vm_compute; exact I.
Defined.

(** ** The symbolic name of a result code *)

Lemma result_to_name_keys_NoDup : NoDup (result_to_name_entries.*1).
Proof. apply (bool_decide_unpack _). vm_compute. exact I. Qed.

(** C5: [enum_name] is total.  A code that has an entry in the table
    [result_to_name] maps to the name of that entry, every other code maps
    to ["???"], and every code is in one of the two cases;
    [VK_ERROR_LAYER_NOT_PRESENT] maps to its own name. *)
Theorem enum_name_total (result : VkResult) (message : string) :
  let e := VulkanException.mk result message in
  (∀ name, (result, name) ∈ result_to_name_entries ->
           VulkanException.enum_name e = name)
  ∧ (result ∉ result_to_name_entries.*1 -> VulkanException.enum_name e = "???")
  ∧ ((∃ name, (result, name) ∈ result_to_name_entries)
     ∨ result ∉ result_to_name_entries.*1)
  ∧ VulkanException.enum_name
      (VulkanException.mk VK_ERROR_LAYER_NOT_PRESENT message)
    = "VK_ERROR_LAYER_NOT_PRESENT".
Proof.
  unfold VulkanException.enum_name, result_to_name.
  cbn [VulkanException.result]. split_and!.
  - intros name Hin.
    apply (elem_of_list_to_map (M:=gmap VkResult)) in Hin as ->;
      [done|apply result_to_name_keys_NoDup].
  - intros Hnotin.
    by apply (not_elem_of_list_to_map (M:=gmap VkResult)) in Hnotin as ->.
  - destruct (decide (result ∈ result_to_name_entries.*1)) as [Hin|Hnotin];
      [left|by right].
    apply list_elem_of_fmap in Hin as [[result' name] [-> Hin]]. by exists name.
  - vm_compute. reflexivity.
Qed.

Lemma enum_name_total_witness :
  VulkanException.enum_name
    (VulkanException.mk VK_ERROR_OUT_OF_DATE_KHR "Error while creating logical devive")
  = "VK_ERROR_OUT_OF_DATE_KHR"
  ∧ VulkanException.enum_name
      (VulkanException.mk 12345 "Error while creating vulkan instance")
    = "???".
Proof.
  split.
  - apply (enum_name_total VK_ERROR_OUT_OF_DATE_KHR).
    apply (bool_decide_unpack _). vm_compute. exact I.
  - apply (enum_name_total 12345).
    apply (bool_decide_unpack _). vm_compute. exact I.
Defined.

(** ** The capability queries *)

(** C10: in [get_layer_infos] and [get_extension_infos] the result code of
    the fill call is not examined.  When the count call succeeds with a
    count that is not zero, the query returns the elements the fill call
    left in the array, whatever result code the fill call reports; and the
    only [VulkanException] either query throws carries the result code of
    the count call. *)
Theorem fill_result_not_examined {D} (drv : Driver D) (w : World D) :
  (∀ count_reply d1 fill_reply d2,
     vkEnumerateInstanceLayerProperties drv None (driver_state w) = (count_reply, d1) ->
     reply_result count_reply = VK_SUCCESS ->
     reply_count count_reply ≠ 0%N ->
     vkEnumerateInstanceLayerProperties drv (Some (reply_count count_reply)) d1
       = (fill_reply, d2) ->
     (reply_count fill_reply ≤ reply_count count_reply)%N ->
     N.to_nat (reply_count fill_reply) ≤ length (reply_written fill_reply) ->
     (get_layer_infos drv w).1
     = Returned (LayerInfo_of <$>
         take (N.to_nat (reply_count fill_reply)) (reply_written fill_reply)))
  ∧ (∀ e, (get_layer_infos drv w).1 = Thrown (vulkan_exception e) ->
          e = VulkanException.mk
                (reply_result
                   (vkEnumerateInstanceLayerProperties drv None (driver_state w)).1)
                "Error getting number of layers")
  ∧ (∀ count_reply d1 fill_reply d2,
     vkEnumerateInstanceExtensionProperties drv None (driver_state w)
       = (count_reply, d1) ->
     reply_result count_reply = VK_SUCCESS ->
     reply_count count_reply ≠ 0%N ->
     vkEnumerateInstanceExtensionProperties drv (Some (reply_count count_reply)) d1
       = (fill_reply, d2) ->
     (reply_count fill_reply ≤ reply_count count_reply)%N ->
     N.to_nat (reply_count fill_reply) ≤ length (reply_written fill_reply) ->
     (get_extension_infos drv w).1
     = Returned (ExtensionInfo_of <$>
         take (N.to_nat (reply_count fill_reply)) (reply_written fill_reply)))
  ∧ (∀ e, (get_extension_infos drv w).1 = Thrown (vulkan_exception e) ->
          e = VulkanException.mk
                (reply_result
                   (vkEnumerateInstanceExtensionProperties drv None (driver_state w)).1)
                "Error getting number of extensions").
Proof.
  split_and!.
  - intros. by eapply get_layer_infos_run.
  - intros e [[_ [= ->]]|(_ & _ & ?)]%get_layer_infos_throws; done.
  - intros. by eapply get_extension_infos_run.
  - intros e [[_ [= ->]]|(_ & _ & ?)]%get_extension_infos_throws; done.
Qed.

(** The fill call reports [VK_ERROR_OUT_OF_HOST_MEMORY] for the layers and
    [VK_INCOMPLETE] for the extensions; both queries return the array. *)
Lemma fill_result_not_examined_witness :
  let machine :=
    Script.with_layers
      (Script.counted VK_SUCCESS [Fixture.validation])
      (Script.filled VK_ERROR_OUT_OF_HOST_MEMORY [Fixture.validation])
      (Script.with_extensions
         (Script.counted VK_SUCCESS [Fixture.surface; Fixture.swapchain])
         {| reply_result := VK_INCOMPLETE; reply_count := 1;
            reply_written := [Fixture.surface] |}
         Fixture.working) in
  (get_layer_infos (Script.driver machine) Script.start).1
  = Returned [LayerInfo_of Fixture.validation]
  ∧ (get_extension_infos (Script.driver machine) Script.start).1
    = Returned [ExtensionInfo_of Fixture.surface].
Proof.
  intros machine.
  destruct (fill_result_not_examined (Script.driver machine) Script.start)
    as (Hlayers & _ & Hextensions & _).
  split.
  - apply (Hlayers (Script.counted VK_SUCCESS [Fixture.validation]) tt
                   (Script.filled VK_ERROR_OUT_OF_HOST_MEMORY [Fixture.validation]) tt);
      [reflexivity|reflexivity|discriminate|reflexivity|..].
    + vm_compute. discriminate.
    + vm_compute. lia.
  - apply (Hextensions
             (Script.counted VK_SUCCESS [Fixture.surface; Fixture.swapchain]) tt
             {| reply_result := VK_INCOMPLETE; reply_count := 1;
                reply_written := [Fixture.surface] |} tt);
      [reflexivity|reflexivity|discriminate|reflexivity|..].
    + vm_compute. discriminate.
    + vm_compute. lia.
Defined.

(** C3, as the code has it: when the count call succeeds with a count of
    zero, the layer query, the global extension query and the per-device
    extension query of [create_logical_device] throw a [std::runtime_error]
    that says so.  The window query has no such test: when the window layer
    reports zero names and success, it returns the empty sequence. *)
Theorem zero_count_is_an_error {D} (drv : Driver D) (w : World D) :
  (∀ count_reply d1,
     vkEnumerateInstanceLayerProperties drv None (driver_state w) = (count_reply, d1) ->
     reply_result count_reply = VK_SUCCESS ->
     reply_count count_reply = 0%N ->
     (get_layer_infos drv w).1 = Thrown (runtime_error "Layer count non-positive"))
  ∧ (∀ count_reply d1,
     vkEnumerateInstanceExtensionProperties drv None (driver_state w)
       = (count_reply, d1) ->
     reply_result count_reply = VK_SUCCESS ->
     reply_count count_reply = 0%N ->
     (get_extension_infos drv w).1 = Thrown (runtime_error "Extension count zero"))
  ∧ (∀ (this : PhysicalDevice.t) (parameters : CreateLogicalDeviceParameters.t)
       count_reply d1,
     vkEnumerateDeviceExtensionProperties drv (PhysicalDevice.physical_device this)
       None (driver_state w) = (count_reply, d1) ->
     reply_result count_reply = VK_SUCCESS ->
     reply_count count_reply = 0%N ->
     (create_logical_device drv this parameters w).1
     = Thrown (runtime_error "No properties array found for physical device"))
  ∧ (∀ window count_reply d1 fill_reply d2,
     SDL_Vulkan_GetInstanceExtensions drv window None (driver_state w)
       = (count_reply, d1) ->
     reply_result count_reply = true ->
     reply_count count_reply = 0%N ->
     SDL_Vulkan_GetInstanceExtensions drv window (Some 0%N) d1 = (fill_reply, d2) ->
     reply_result fill_reply = true ->
     reply_count fill_reply = 0%N ->
     (get_extension_names drv window w).1 = Returned []).
Proof.
  split_and!.
  - intros count_reply d1 Hcount Hok Hzero. unfold get_layer_infos.
    step_call Hcount. decide_success Hok. by rewrite decide_True.
  - intros count_reply d1 Hcount Hok Hzero. unfold get_extension_infos.
    step_call Hcount. decide_success Hok. by rewrite decide_True.
  - intros this parameters count_reply d1 Hcount Hok Hzero.
    unfold create_logical_device.
    step_call Hcount. decide_success Hok. by rewrite decide_True.
  - intros window count_reply d1 fill_reply d2 Hcount Hok Hzero Hfill Hok' Hzero'.
    rewrite <- Hzero in Hfill.
    rewrite (get_extension_names_run drv window w count_reply d1 fill_reply d2);
      [|done|done|done|done|lia|rewrite Hzero'; cbn; lia].
    by rewrite Hzero'.
Qed.

Lemma zero_count_is_an_error_witness :
  let machine :=
    Script.honest [] [] [] Fixture.accelerators []
      (VK_SUCCESS, Fixture.the_instance) (VK_SUCCESS, Fixture.the_device)
      (VK_SUCCESS, Some 1%N) in
  (get_layer_infos (Script.driver machine) Script.start).1
  = Thrown (runtime_error "Layer count non-positive")
  ∧ (get_extension_infos (Script.driver machine) Script.start).1
    = Thrown (runtime_error "Extension count zero")
  ∧ (create_logical_device (Script.driver machine) (PhysicalDevice.mk 7 0)
       Fixture.swapchain_request Script.start).1
    = Thrown (runtime_error "No properties array found for physical device")
  ∧ (get_extension_names (Script.driver machine) 5%N Script.start).1 = Returned [].
Proof.
  intros machine.
  destruct (zero_count_is_an_error (Script.driver machine) Script.start)
    as (Hlayers & Hextensions & Hdevice & Hwindow).
  split_and!.
  - by apply (Hlayers (Script.counted VK_SUCCESS []) tt).
  - by apply (Hextensions (Script.counted VK_SUCCESS []) tt).
  - by apply (Hdevice _ _ (Script.counted VK_SUCCESS []) tt).
  - by apply (Hwindow _ (Script.counted true []) tt (Script.filled true []) tt).
Defined.

(** C3 as stated does not hold.  The window query of a window that needs no
    extension returns an empty sequence and throws nothing; and the layer
    query returns an empty sequence when the layers are gone between the
    count call and the fill call. *)
Lemma zero_count_counterexample :
  (get_extension_names
     (Script.driver (Fixture.script [] [Fixture.swapchain] VK_SUCCESS VK_SUCCESS
                       (VK_SUCCESS, Some 1%N)))
     5%N Script.start).1 = Returned []
  ∧ (get_layer_infos
       (Script.driver
          (Script.with_layers (Script.counted VK_SUCCESS [Fixture.validation])
             (Script.filled VK_SUCCESS []) Fixture.working))
       Script.start).1 = Returned [].
Proof. split; vm_compute; reflexivity. Qed.

(** ** Selection of the accelerator *)

(** C4: when the instance exposes the accelerators [selected :: others]
    ([vkEnumeratePhysicalDevices] succeeds twice, reports a count that is
    not zero and writes the list), [select_gpu] returns the descriptor of
    [selected], the element of index 0, with the queue-family index 0: the
    array index is stored as the queue-family index and no queue-family
    property is asked for. *)
Theorem select_gpu_first {D} (drv : Driver D) (this : Instance.t) (w : World D)
    count_reply d1 fill_reply d2 selected others :
  vkEnumeratePhysicalDevices drv (Instance.instance this) None (driver_state w)
    = (count_reply, d1) ->
  reply_result count_reply = VK_SUCCESS ->
  reply_count count_reply ≠ 0%N ->
  vkEnumeratePhysicalDevices drv (Instance.instance this)
    (Some (reply_count count_reply)) d1 = (fill_reply, d2) ->
  reply_result fill_reply = VK_SUCCESS ->
  reply_written fill_reply = selected :: others ->
  (select_gpu drv this w).1
  = Returned {| PhysicalDevice.physical_device := selected;
                PhysicalDevice.queue_family_index := 0 |}
  ∧ trace (select_gpu drv this w).2
    = trace w ++ [Call_vkEnumeratePhysicalDevices (Instance.instance this) None;
                  Call_vkEnumeratePhysicalDevices (Instance.instance this)
                    (Some (reply_count count_reply))].
Proof.
  intros Hcount Hok Hnz Hfill Hok' Hwritten. split.
  - by eapply select_gpu_run.
  - unfold select_gpu.
    step_call Hcount. decide_success Hok.
    step_new. step_call Hfill. decide_success Hok'.
    rewrite MonadFacts.bind_unfold, MonadFacts.array_read_unfold.
    unfold array_after_write. rewrite Hwritten.
    destruct (N.to_nat (reply_count count_reply)) as [|n] eqn:Hn; [lia|].
    cbn [take]. change (Z.to_nat 0) with 0%nat.
    change ((selected :: take n others) !! 0%nat) with (Some selected). cbv iota.
    step_delete. cbn [snd trace]. by rewrite <- app_assoc.
Qed.

Lemma select_gpu_first_witness :
  (select_gpu (Script.driver Fixture.working) (Instance.mk Fixture.the_instance)
     Script.start).1
  = Returned (PhysicalDevice.mk 7 0).
Proof.
  by apply (select_gpu_first (Script.driver Fixture.working)
              (Instance.mk Fixture.the_instance) Script.start
              (Script.counted VK_SUCCESS Fixture.accelerators) tt
              (Script.filled VK_SUCCESS Fixture.accelerators) tt 7%N [8; 9]%N).
Defined.

(** ** Surface support *)

(** C6: [is_surface_supported] asks the driver about the stored queue
    family and has no failure path: it returns, whatever the result code,
    the boolean the driver stored, or [false] if the driver stored nothing.
    A driver error that stores nothing and a success that stores
    [VK_FALSE] both give [false]. *)
Theorem is_surface_supported_no_failure_path {D} (drv : Driver D)
    (this : PhysicalDevice.t) (surface : Surface.t) (w : World D) :
  let reply :=
    (vkGetPhysicalDeviceSurfaceSupportKHR drv (PhysicalDevice.physical_device this)
       (PhysicalDevice.queue_family_index this) (Surface.surface surface)
       (driver_state w)).1 in
  (is_surface_supported drv this surface w).1
  = Returned (negb (default 0%N reply.2 =? 0)%N)
  ∧ trace (is_surface_supported drv this surface w).2
    = trace w ++
      [Call_vkGetPhysicalDeviceSurfaceSupportKHR (PhysicalDevice.physical_device this)
         (PhysicalDevice.queue_family_index this) (Surface.surface surface)]
  ∧ (reply.2 = None ∨ reply.2 = Some 0%N ->
     (is_surface_supported drv this surface w).1 = Returned false).
Proof.
  destruct (vkGetPhysicalDeviceSurfaceSupportKHR drv _ _ _ _)
    as [[result stored] d1] eqn:Hcall.
  rewrite (is_surface_supported_run drv this surface w result stored d1 Hcall).
  cbn [fst snd trace]. split_and!; [done..|]. by intros [-> | ->].
Qed.

Lemma is_surface_supported_no_failure_path_witness :
  (is_surface_supported
     (Script.driver (Fixture.script [] [Fixture.swapchain] VK_SUCCESS VK_SUCCESS
                       (VK_ERROR_SURFACE_LOST_KHR, None)))
     (PhysicalDevice.mk 7 0) (Surface.mk 3) Script.start).1 = Returned false
  ∧ (is_surface_supported
       (Script.driver (Fixture.script [] [Fixture.swapchain] VK_SUCCESS VK_SUCCESS
                         (VK_SUCCESS, Some 0%N)))
       (PhysicalDevice.mk 7 0) (Surface.mk 3) Script.start).1 = Returned false.
Proof.
  split.
  - apply is_surface_supported_no_failure_path. left. reflexivity.
  - apply is_surface_supported_no_failure_path. right. reflexivity.
Defined.

(** ** Creation of the logical device *)

Section device_claims.
Context {D : Type} (drv : Driver D).
Context {P : Type} `{IRequestLayerAndExtensions P}.
Context (this : PhysicalDevice.t) (parameters : P) (w : World D).
Context (count_reply fill_reply : EnumReply VkResult VkExtensionProperties) (d1 d2 : D).

Let physical_device := PhysicalDevice.physical_device this.
Let queue_family_index := PhysicalDevice.queue_family_index this.
Let requested_names := ExtensionInfo.name <$> get_requested_extensions parameters.
Let supported_names :=
  extensionName <$>
    take (N.to_nat (reply_count fill_reply)) (reply_written fill_reply).
Let create_info := device_create_info this parameters (S (next_addr w)).

(** The accelerator reports its extensions: both calls succeed, the first
    with a count that is not zero, and the elements read were written. *)
Hypothesis Hcount :
  vkEnumerateDeviceExtensionProperties drv physical_device None (driver_state w)
  = (count_reply, d1).
Hypothesis Hcount_ok : reply_result count_reply = VK_SUCCESS.
Hypothesis Hcount_nz : reply_count count_reply ≠ 0%N.
Hypothesis Hfill :
  vkEnumerateDeviceExtensionProperties drv physical_device
    (Some (reply_count count_reply)) d1
  = (fill_reply, d2).
Hypothesis Hfill_ok : reply_result fill_reply = VK_SUCCESS.
Hypothesis Hfill_le : (reply_count fill_reply ≤ reply_count count_reply)%N.
Hypothesis Hfill_written :
  N.to_nat (reply_count fill_reply) ≤ length (reply_written fill_reply).

(** The heap is well formed and the requests fit a [uint32_t] count. *)
Hypothesis Hheap : heap_wf w.
Hypothesis Hlayers :
  (N.of_nat (length (get_requested_layers parameters)) < 2 ^ 32)%N.
Hypothesis Hextensions :
  (N.of_nat (length (get_requested_extensions parameters)) < 2 ^ 32)%N.

(** C1, as the code has it: when the accelerator reports its extensions
    [S] (a count that is not zero), [create_logical_device] throws a
    [std::runtime_error] if and only if the requested names [R] are not
    all in [S]; its message is the text "Not all extensions found:"
    followed by a space and the names of [R − S], strictly increasing and
    joined by spaces.  When [R] is included in [S] it goes on to
    [vkCreateDevice] and returns the device or throws the
    [VulkanException] of the driver's result code. *)
Theorem create_logical_device_gate :
  let outcome := (create_logical_device drv this parameters w).1 in
  ((∃ what, outcome = Thrown (runtime_error what))
   <-> ¬ requested_names ⊆ supported_names)
  ∧ (¬ requested_names ⊆ supported_names ->
     ∃ missing,
       StdSet.wf missing
       ∧ (∀ x, x ∈ missing <-> x ∈ requested_names ∧ x ∉ supported_names)
       ∧ outcome = Thrown (runtime_error
           ("Not all extensions found: " +:+ String.concat " " missing)))
  ∧ (requested_names ⊆ supported_names ->
     let reply := (vkCreateDevice drv physical_device create_info d2).1 in
     outcome =
       if decide (reply.1 ≠ VK_SUCCESS)
       then Thrown (VulkanException reply.1 "Error while creating logical devive")
       else Returned (LogicalDevice.mk reply.2 queue_family_index)).
Proof.
  intros outcome.
  assert (requested_names ⊆ supported_names ->
          let reply := (vkCreateDevice drv physical_device create_info d2).1 in
          outcome =
            if decide (reply.1 ≠ VK_SUCCESS)
            then Thrown (VulkanException reply.1 "Error while creating logical devive")
            else Returned (LogicalDevice.mk reply.2 queue_family_index))
    as Hsatisfied.
  { intros Hsub.
    destruct (vkCreateDevice drv physical_device create_info d2)
      as [[result device] d3] eqn:Hcreate.
    unfold outcome.
    rewrite (create_logical_device_satisfied drv this parameters w
               count_reply fill_reply d1 d2 Hcount Hcount_ok Hcount_nz Hfill Hfill_ok
               Hfill_le Hfill_written result device d3 Hsub Hheap Hlayers Hextensions
               Hcreate).
    cbn [fst snd]. by destruct (decide (result ≠ VK_SUCCESS)). }
  assert (¬ requested_names ⊆ supported_names ->
          ∃ missing,
            StdSet.wf missing
            ∧ (∀ x, x ∈ missing <-> x ∈ requested_names ∧ x ∉ supported_names)
            ∧ outcome = Thrown (runtime_error
                ("Not all extensions found: " +:+ String.concat " " missing)))
    as Hunsatisfied.
  { intros Hmissing. unfold outcome.
    rewrite (create_logical_device_unsatisfied drv this parameters w
               count_reply fill_reply d1 d2 Hcount Hcount_ok Hcount_nz Hfill Hfill_ok
               Hfill_le Hfill_written Hmissing).
    cbn [fst].
    destruct (GateFacts.not_found_names_spec (get_requested_extensions parameters)
                (take (N.to_nat (reply_count fill_reply)) (reply_written fill_reply)))
      as (_ & Hwf & Helem).
    eexists. split_and!; [exact Hwf|exact Helem|].
    destruct (StdSet.set_difference _ _) as [|name names] eqn:Hdiff.
    - destruct Hmissing. intros x Hx.
      destruct (decide (x ∈ supported_names)) as [|Hnotin]; [done|].
      assert (x ∈ @nil string) as []%elem_of_nil. by apply Helem.
    - by rewrite GateFacts.not_found_names_str_concat. }
  split_and!; [|done|done].
  split.
  - intros [what Hthrown] Hsub. specialize (Hsatisfied Hsub). cbv zeta in Hsatisfied.
    rewrite Hthrown in Hsatisfied. by destruct (decide _).
  - intros Hmissing. destruct (Hunsatisfied Hmissing) as (missing & _ & _ & ->).
    by eexists.
Qed.

(** C7: the queue-family index of the descriptor is the one used by the
    operations on it.  [create_logical_device] passes [vkCreateDevice] one
    queue-creation request, with that index, and the [LogicalDevice] it
    returns carries the same index; [is_surface_supported] asks the driver
    about that index.  Neither operation changes the descriptor, which is
    passed by value. *)
Theorem queue_family_index_reused (surface : Surface.t) :
  requested_names ⊆ supported_names ->
  let created := create_logical_device drv this parameters w in
  let reply := (vkCreateDevice drv physical_device create_info d2).1 in
  trace created.2
  = trace w ++
    [Call_vkEnumerateDeviceExtensionProperties physical_device None;
     Call_vkEnumerateDeviceExtensionProperties physical_device
       (Some (reply_count count_reply));
     Call_vkCreateDevice physical_device create_info]
  ∧ queueFamilyIndex <$> pQueueCreateInfos create_info = [queue_family_index]
  ∧ queueCreateInfoCount create_info = 1%N
  ∧ (reply.1 = VK_SUCCESS ->
     created.1 = Returned (LogicalDevice.mk reply.2 queue_family_index))
  ∧ trace (is_surface_supported drv this surface created.2).2
    = trace created.2 ++
      [Call_vkGetPhysicalDeviceSurfaceSupportKHR physical_device queue_family_index
         (Surface.surface surface)].
Proof.
  intros Hsub created reply.
  destruct (vkCreateDevice drv physical_device create_info d2)
    as [[result device] d3] eqn:Hcreate.
  pose proof (create_logical_device_satisfied drv this parameters w
                count_reply fill_reply d1 d2 Hcount Hcount_ok Hcount_nz Hfill Hfill_ok
                Hfill_le Hfill_written result device d3 Hsub Hheap Hlayers Hextensions
                Hcreate) as Hrun.
  cbv zeta in Hrun. fold created in Hrun. subst reply. cbn [fst snd].
  split_and!.
  - rewrite Hrun. by destruct (decide (result ≠ VK_SUCCESS)).
  - done.
  - done.
  - intros ->. rewrite Hrun. by rewrite decide_False by (by intros []).
  - destruct (vkGetPhysicalDeviceSurfaceSupportKHR drv physical_device
                queue_family_index (Surface.surface surface) (driver_state created.2))
      as [[result' stored] d4] eqn:Hsupport.
    by rewrite (is_surface_supported_run drv this surface created.2 result' stored d4).
Qed.

(** What is left on the heap.  The array of the extension properties is
    released on the path that returns the device and on no other: it is
    still live after the throw for a missing extension and after the throw
    for a failed [vkCreateDevice].  The two name arrays are released on
    both paths of the creation. *)
Lemma create_logical_device_live :
  let created := create_logical_device drv this parameters w in
  let reply := (vkCreateDevice drv physical_device create_info d2).1 in
  (¬ requested_names ⊆ supported_names -> live created.2 = next_addr w :: live w)
  ∧ (requested_names ⊆ supported_names -> reply.1 ≠ VK_SUCCESS ->
     live created.2 = next_addr w :: live w)
  ∧ (requested_names ⊆ supported_names -> reply.1 = VK_SUCCESS ->
     live created.2 = live w).
Proof.
  intros created reply.
  destruct (vkCreateDevice drv physical_device create_info d2)
    as [[result device] d3] eqn:Hcreate.
  subst reply. cbn [fst]. split_and!.
  - intros Hmissing. unfold created.
    by rewrite (create_logical_device_unsatisfied drv this parameters w
                  count_reply fill_reply d1 d2 Hcount Hcount_ok Hcount_nz Hfill Hfill_ok
                  Hfill_le Hfill_written Hmissing).
  - intros Hsub Hfailed. unfold created.
    rewrite (create_logical_device_satisfied drv this parameters w
               count_reply fill_reply d1 d2 Hcount Hcount_ok Hcount_nz Hfill Hfill_ok
               Hfill_le Hfill_written result device d3 Hsub Hheap Hlayers Hextensions
               Hcreate).
    by rewrite decide_True.
  - intros Hsub ->. unfold created.
    rewrite (create_logical_device_satisfied drv this parameters w
               count_reply fill_reply d1 d2 Hcount Hcount_ok Hcount_nz Hfill Hfill_ok
               Hfill_le Hfill_written VK_SUCCESS device d3 Hsub Hheap Hlayers Hextensions
               Hcreate).
    by rewrite decide_False by (by intros []).
Qed.

End device_claims.

(** On the working machine the swapchain is supported and the device is
    created; on a machine whose accelerator only reports
    [VK_KHR_maintenance1] the creation throws a [std::runtime_error]. *)
Lemma create_logical_device_gate_witness :
  (create_logical_device (Script.driver Fixture.working) (PhysicalDevice.mk 7 0)
     Fixture.swapchain_request Script.start).1
  = Returned (LogicalDevice.mk Fixture.the_device 0)
  ∧ ∃ what,
      (create_logical_device
         (Script.driver (Fixture.script [] [Fixture.maintenance1] VK_SUCCESS VK_SUCCESS
                           (VK_SUCCESS, Some 1%N)))
         (PhysicalDevice.mk 7 0) Fixture.swapchain_request Script.start).1
      = Thrown (runtime_error what).
Proof.
  split.
  - refine (proj2 (proj2
      (create_logical_device_gate (Script.driver Fixture.working)
         (PhysicalDevice.mk 7 0) Fixture.swapchain_request Script.start
         (Script.counted VK_SUCCESS [Fixture.swapchain; Fixture.maintenance1])
         (Script.filled VK_SUCCESS [Fixture.swapchain; Fixture.maintenance1]) tt tt
         _ _ _ _ _ _ _ _ _ _)) _);
      try reflexivity; try (vm_compute; discriminate); try (vm_compute; lia).
    + constructor.
    + apply (bool_decide_unpack _). vm_compute. exact I.
  - refine (proj2 (proj1
      (create_logical_device_gate
         (Script.driver (Fixture.script [] [Fixture.maintenance1] VK_SUCCESS VK_SUCCESS
                           (VK_SUCCESS, Some 1%N)))
         (PhysicalDevice.mk 7 0) Fixture.swapchain_request Script.start
         (Script.counted VK_SUCCESS [Fixture.maintenance1])
         (Script.filled VK_SUCCESS [Fixture.maintenance1]) tt tt
         _ _ _ _ _ _ _ _ _ _)) _);
      try reflexivity; try (vm_compute; discriminate); try (vm_compute; lia).
    + constructor.
    + apply (bool_decide_unpack _). vm_compute. exact I.
Defined.

(** C1 as stated does not hold.  On an accelerator that reports only
    [VK_KHR_maintenance1], the request of [VK_KHR_swapchain] fails with a
    message that is not the joined names alone; and on an accelerator that
    reports no extension, the same request, which is not included in the
    empty set, fails with the error of the empty result instead. *)
Lemma create_logical_device_gate_counterexample :
  (create_logical_device
     (Script.driver (Fixture.script [] [Fixture.maintenance1] VK_SUCCESS VK_SUCCESS
                       (VK_SUCCESS, Some 1%N)))
     (PhysicalDevice.mk 7 0) Fixture.swapchain_request Script.start).1
  = Thrown (runtime_error "Not all extensions found: VK_KHR_swapchain")
  ∧ "Not all extensions found: VK_KHR_swapchain"
    ≠ String.concat " " ["VK_KHR_swapchain"]
  ∧ (create_logical_device
       (Script.driver (Fixture.script [] [] VK_SUCCESS VK_SUCCESS (VK_SUCCESS, Some 1%N)))
       (PhysicalDevice.mk 7 0) Fixture.swapchain_request Script.start).1
    = Thrown (runtime_error "No properties array found for physical device")
  ∧ ¬ (ExtensionInfo.name <$> get_requested_extensions Fixture.swapchain_request)
      ⊆ (extensionName <$> []).
Proof.
  split_and!.
  - vm_compute. reflexivity.
  - discriminate.
  - vm_compute. reflexivity.
  - intros Hsub. assert ("VK_KHR_swapchain" ∈ @nil string) as []%elem_of_nil.
    apply (Hsub "VK_KHR_swapchain"). cbn. left.
Qed.

(** On the working machine, a request with one layer and one extension:
    the driver sees one queue of family 0 and the device carries family 0. *)
Lemma queue_family_index_reused_witness :
  let created :=
    create_logical_device (Script.driver Fixture.working) (PhysicalDevice.mk 7 0)
      Fixture.layered_request Script.start in
  created.1 = Returned (LogicalDevice.mk Fixture.the_device 0)
  ∧ trace (is_surface_supported (Script.driver Fixture.working) (PhysicalDevice.mk 7 0)
             (Surface.mk 3) created.2).2
    = trace created.2 ++ [Call_vkGetPhysicalDeviceSurfaceSupportKHR 7 0 3].
Proof.
  intros created.
  assert (heap_wf Script.start) as Hheap by constructor.
  assert ((ExtensionInfo.name <$> get_requested_extensions Fixture.layered_request)
          ⊆ (extensionName <$>
               take (N.to_nat 2) [Fixture.swapchain; Fixture.maintenance1])) as Hsub.
  { apply (bool_decide_unpack _). vm_compute. exact I. }
  destruct (queue_family_index_reused (Script.driver Fixture.working)
              (PhysicalDevice.mk 7 0) Fixture.layered_request Script.start
              (Script.counted VK_SUCCESS [Fixture.swapchain; Fixture.maintenance1])
              (Script.filled VK_SUCCESS [Fixture.swapchain; Fixture.maintenance1]) tt tt
              eq_refl eq_refl ltac:(vm_compute; discriminate) eq_refl eq_refl
              ltac:(vm_compute; discriminate) ltac:(vm_compute; lia) Hheap
              eq_refl eq_refl (Surface.mk 3) Hsub)
    as (_ & _ & _ & Hreturned & Hsupport).
  split; [by apply Hreturned|exact Hsupport].
Defined.

(** C9 fails on the code.  Starting from an empty heap, the array of the
    extension properties (block 0) is still allocated when
    [create_logical_device] throws because an extension is missing, and
    when it throws because [vkCreateDevice] failed; in the second case the
    blocks of the two name arrays were released.  Instance creation
    releases everything when [vkCreateInstance] fails. *)
Theorem extension_properties_leak_on_error :
  live (create_logical_device
          (Script.driver (Fixture.script [] [Fixture.maintenance1] VK_SUCCESS VK_SUCCESS
                            (VK_SUCCESS, Some 1%N)))
          (PhysicalDevice.mk 7 0) Fixture.layered_request Script.start).2 = [0]
  ∧ create_logical_device
      (Script.driver (Fixture.script [] [Fixture.swapchain] VK_SUCCESS
                        VK_ERROR_INITIALIZATION_FAILED (VK_SUCCESS, Some 1%N)))
      (PhysicalDevice.mk 7 0) Fixture.layered_request Script.start
    = (Thrown (VulkanException VK_ERROR_INITIALIZATION_FAILED
                 "Error while creating logical devive"),
       {| driver_state := tt; live := [0]; next_addr := 5;
          trace :=
            [Call_vkEnumerateDeviceExtensionProperties 7 None;
             Call_vkEnumerateDeviceExtensionProperties 7 (Some 1%N);
             Call_vkCreateDevice 7
               (device_create_info (PhysicalDevice.mk 7 0) Fixture.layered_request 1)]
       |})
  ∧ live (create_logical_device (Script.driver Fixture.working) (PhysicalDevice.mk 7 0)
            Fixture.layered_request Script.start).2 = []
  ∧ live (Instance_ctor
            (Script.driver (Fixture.script [] [Fixture.swapchain]
                              VK_ERROR_LAYER_NOT_PRESENT VK_SUCCESS
                              (VK_SUCCESS, Some 1%N)))
            (CreateInstanceParameters.mk [LayerInfo_of Fixture.validation]
               [ExtensionInfo_of Fixture.surface])
            Script.start).2 = [].
Proof. split_and!; vm_compute; reflexivity. Qed.
